(** * WS281x-over-SPI LED driver: encoding engine and update protocol

    A shallow embedding of [leds-ws281x-spi.c].  Machine integers are
    modelled as [Z] with their wrap-around written out, the pixelstream
    as a list of bytes updated in place, and a store outside the buffer
    (undefined behaviour in C) as [None]. *)

From Stdlib Require Import ZArith Lia.
From stdpp Require Import base option list numbers.

(** ** Machine integers *)

Definition to_u8 (z : Z) : Z := (z mod 2 ^ 8)%Z.
Definition to_u32 (z : Z) : Z := (z mod 2 ^ 32)%Z.

Definition UINT_MAX : Z := (2 ^ 32 - 1)%Z.

(** [BITS_PER_BYTE] of <linux/bits.h>. *)
Definition BITS_PER_BYTE : Z := 8%Z.

(** ** Chip information *)

(** [struct ws281x_chipinfo]. *)
Record ws281x_chipinfo := {
  zero_val : Z;      (* u8 *)
  one_val : Z;       (* u8 *)
  write_freq : Z;    (* u32 *)
  subpixel_sz : Z;   (* u8 *)
  ch_per_led : Z;    (* u8 *)
  pixel_sz : Z       (* u8 *)
}.

Definition ws2812b_info : ws281x_chipinfo := {|
  zero_val := 0xc0;
  one_val := 0xfc;
  write_freq := 6400000;
  subpixel_sz := BITS_PER_BYTE;
  ch_per_led := 3;
  pixel_sz := BITS_PER_BYTE * 3
|}.

(** The fields of a chipinfo are [u8]/[u32] values. *)
Definition chipinfo_in_range (info : ws281x_chipinfo) : Prop :=
  (0 ≤ zero_val info < 256)%Z ∧ (0 ≤ one_val info < 256)%Z ∧
  (0 ≤ write_freq info ≤ UINT_MAX)%Z ∧ (0 ≤ subpixel_sz info < 256)%Z ∧
  (0 ≤ ch_per_led info < 256)%Z ∧ (0 ≤ pixel_sz info < 256)%Z.

(** ** Byte buffers *)

Abbreviation buffer := (list Z).

(** [buf[i] = v]; a store past the end of the allocation has no defined
    behaviour and is modelled as a failure. *)
Definition store (buf : buffer) (i : nat) (v : Z) : option buffer :=
  if decide (i < length buf) then Some (<[i:=v]> buf) else None.

(** ** Subpixel and pixel formatting *)

(** The body of the [for] loop of [ws281x_format_subpixel]: [n] is the
    number of iterations left, [i] the loop counter, [pixel] the
    (shifted) [unsigned char] argument; [base] is the position of
    [subpixel_buf] inside the buffer it points into. *)
Fixpoint ws281x_format_subpixel_loop (info : ws281x_chipinfo) (n : nat)
    (buf : buffer) (base i : nat) (pixel : Z) : option buffer :=
  match n with
  | O => Some buf
  | S n' =>
      buf' ← store buf (base + i)
               (if bool_decide (Z.land pixel 0x80 ≠ 0%Z)
                then one_val info else zero_val info);
      ws281x_format_subpixel_loop info n' buf' base (S i)
        (to_u8 (Z.shiftl pixel 1))
  end.

Definition ws281x_format_subpixel (info : ws281x_chipinfo)
    (buf : buffer) (subpixel_buf : nat) (pixel : Z) : option buffer :=
  ws281x_format_subpixel_loop info (Z.to_nat (subpixel_sz info))
    buf subpixel_buf 0 pixel.

Definition ws2812_format_pixel_grb (info : ws281x_chipinfo)
    (buf : buffer) (pixel_buf : nat) (g r b : Z) : option buffer :=
  buf ← ws281x_format_subpixel info buf pixel_buf g;
  let pixel_buf := pixel_buf + Z.to_nat (subpixel_sz info) in
  buf ← ws281x_format_subpixel info buf pixel_buf r;
  let pixel_buf := pixel_buf + Z.to_nat (subpixel_sz info) in
  ws281x_format_subpixel info buf pixel_buf b.

(** ** Reading a formatted subpixel back *)

(** The symbol standing for one logical bit. *)
Definition symbol_of_bit (info : ws281x_chipinfo) (bit : bool) : Z :=
  if bit then one_val info else zero_val info.

(** The bit a chip reads from one symbol. *)
Definition bit_of_symbol (info : ws281x_chipinfo) (s : Z) : option bool :=
  if decide (s = one_val info) then Some true
  else if decide (s = zero_val info) then Some false
  else None.

(** Reads a symbol sequence as a binary number, first symbol most
    significant; [acc] holds the bits read so far. *)
Fixpoint decode_symbols (info : ws281x_chipinfo) (acc : Z)
    (syms : list Z) : option Z :=
  match syms with
  | [] => Some acc
  | s :: syms' =>
      bit ← bit_of_symbol info s;
      decode_symbols info (2 * acc + Z.b2z bit)%Z syms'
  end.

(** The symbols of a subpixel value, bit 7 first. *)
Definition subpixel_symbols (info : ws281x_chipinfo) (n : nat)
    (pixel : Z) : list Z :=
  (λ i : nat, symbol_of_bit info (Z.testbit pixel (7 - Z.of_nat i))) <$> seq 0 n.

(** The [n] bytes of [buf] starting at [off]. *)
Definition region (buf : buffer) (off n : nat) : list Z :=
  take n (drop off buf).

(** ** LED class structures *)

(** Constants of <linux/leds.h>, <dt-bindings/leds/common.h>,
    <linux/spi/spi.h> and <uapi/asm-generic/errno-base.h>. *)
Definition LED_OFF : Z := 0%Z.
Definition LED_FULL : Z := 255%Z.
Definition LED_COLOR_ID_RED : Z := 1%Z.
Definition LED_COLOR_ID_GREEN : Z := 2%Z.
Definition LED_COLOR_ID_BLUE : Z := 3%Z.
Definition SPI_MODE_0 : Z := 0%Z.
Definition ENOMEM : Z := 12%Z.
Definition EINVAL : Z := 22%Z.

(** [struct mc_subled]; all fields are [unsigned int]. *)
Record mc_subled := {
  color_index : Z;
  brightness : Z;
  intensity : Z;
  channel : Z
}.

(** The fields of [struct led_classdev] the driver touches. *)
Record led_classdev := {
  cdev_brightness : Z;
  max_brightness : Z
}.

(** [struct led_classdev_mc]; [subled_info] points to an array, held
    here as the list of its elements ([[]] for a null pointer). *)
Record led_classdev_mc := {
  led_cdev : led_classdev;
  num_colors : Z;
  subled_info : list mc_subled
}.

(** [struct ws281x_led].  The [parent] pointer always designates the
    array the LED is embedded in and is implicit in the model. *)
Record ws281x_led := {
  led : led_classdev_mc
}.

(** The configuration fields of [struct spi_device]. *)
Record spi_device := {
  mode : Z;
  bits_per_word : Z;
  max_speed_hz : Z
}.

(** [struct ws281x_array]; [mutex] tells whether the mutex is held and
    [spi] is [None] for a null pointer. *)
Record ws281x_array := {
  spi : option spi_device;
  mutex : bool;
  info : ws281x_chipinfo;
  pixelstream : buffer;
  num_leds : Z;                (* u32 *)
  leds : list ws281x_led
}.

Definition set_mutex (ws : ws281x_array) (m : bool) : ws281x_array :=
  {| spi := spi ws; mutex := m; info := info ws;
     pixelstream := pixelstream ws; num_leds := num_leds ws;
     leds := leds ws |}.

Definition set_pixelstream (ws : ws281x_array) (buf : buffer) : ws281x_array :=
  {| spi := spi ws; mutex := mutex ws; info := info ws;
     pixelstream := buf; num_leds := num_leds ws; leds := leds ws |}.

Definition set_leds (ws : ws281x_array) (ls : list ws281x_led) : ws281x_array :=
  {| spi := spi ws; mutex := mutex ws; info := info ws;
     pixelstream := pixelstream ws; num_leds := num_leds ws; leds := ls |}.

Definition set_spi (ws : ws281x_array) (s : spi_device) : ws281x_array :=
  {| spi := Some s; mutex := mutex ws; info := info ws;
     pixelstream := pixelstream ws; num_leds := num_leds ws;
     leds := leds ws |}.

Definition set_subled_brightness (s : mc_subled) (v : Z) : mc_subled :=
  {| color_index := color_index s; brightness := v;
     intensity := intensity s; channel := channel s |}.

Definition set_color_index (s : mc_subled) (c : Z) : mc_subled :=
  {| color_index := c; brightness := brightness s;
     intensity := intensity s; channel := channel s |}.

Definition set_subled_info (mc : led_classdev_mc) (subs : list mc_subled)
    : led_classdev_mc :=
  {| led_cdev := led_cdev mc; num_colors := num_colors mc;
     subled_info := subs |}.

(** ** Rebuilding the pixelstream *)

(** The [for] loop of [ws281x_update_pixelstream]: [n] iterations are
    left, [pixelstream] is the position of the moving pointer and [i]
    the loop counter.  An LED or subled index outside its array is
    undefined behaviour.  The subled brightness is an [unsigned int]
    converted to the [unsigned char] parameter. *)
Fixpoint ws281x_update_pixelstream_loop (ws : ws281x_array) (n : nat)
    (buf : buffer) (pixelstream i : nat) : option buffer :=
  match n with
  | O => Some buf
  | S n' =>
      l ← leds ws !! i;
      g ← subled_info (led l) !! 1;
      r ← subled_info (led l) !! 0;
      b ← subled_info (led l) !! 2;
      buf' ← ws2812_format_pixel_grb (info ws) buf pixelstream
               (to_u8 (brightness g)) (to_u8 (brightness r))
               (to_u8 (brightness b));
      ws281x_update_pixelstream_loop ws n' buf'
        (pixelstream + Z.to_nat (pixel_sz (info ws))) (S i)
  end.

(** The buffer [ws281x_update_pixelstream] leaves in [ws->pixelstream]. *)
Definition ws281x_update_pixelstream_buf (ws : ws281x_array) : option buffer :=
  ws281x_update_pixelstream_loop ws (Z.to_nat (num_leds ws))
    (pixelstream ws) 0 0.

(** ** Events and the driver monad *)

(** [struct spi_transfer]: [tx_buf] points at the start of the memory
    held in the model as a list, [len] is an [unsigned]. *)
Record spi_transfer := {
  tx_buf : buffer;
  len : Z
}.

(** What a run of the driver does to its shared state, in order; the
    [locked] flags record whether [ws281x->mutex] was held at the time. *)
Inductive event :=
| EvMutexLock
| EvMutexUnlock
| EvChannelStore (num : nat) (locked : bool)
| EvPixelstreamStore (locked : bool)
| EvSpiSync (xfers : spi_transfer) (ret : Z) (locked : bool)
| EvDevErr (ret : Z)
| EvAllocArray (count : Z)
| EvSetDrvdata
| EvMutexInit (ret : Z)
| EvSpiSetup (spi : spi_device) (ret : Z)
| EvAllocPixelstream (n : Z)
| EvAllocSubleds (num : nat)
| EvRegisterLed (num : nat) (ret : Z).

Record machine := {
  chain : ws281x_array;
  trace : list event
}.

(** State and failure: [None] stands for an execution without defined
    behaviour (or, for [mutex_lock], one that never proceeds). *)
Definition M (A : Type) : Type := machine → option (A * machine).

#[global] Instance M_ret : MRet M := λ A a s, Some (a, s).
#[global] Instance M_bind : MBind M := λ A B f m s,
  match m s with
  | Some (a, s') => f a s'
  | None => None
  end.

Definition get_chain : M ws281x_array := λ s, Some (chain s, s).
Definition put_chain (ws : ws281x_array) : M unit :=
  λ s, Some (tt, {| chain := ws; trace := trace s |}).
Definition emit (e : event) : M unit :=
  λ s, Some (tt, {| chain := chain s; trace := trace s ++ [e] |}).
Definition lift_option {A} (o : option A) : M A :=
  λ s, match o with Some a => Some (a, s) | None => None end.

Definition mutex_lock : M unit :=
  ws ← get_chain;
  if mutex ws then lift_option None
  else (_ ← put_chain (set_mutex ws true); emit EvMutexLock).

Definition mutex_unlock : M unit :=
  ws ← get_chain;
  _ ← put_chain (set_mutex ws false);
  emit EvMutexUnlock.

Definition run {A} (m : M A) (ws : ws281x_array) : option (A * machine) :=
  m {| chain := ws; trace := [] |}.

(** ** The update protocol *)

Section Driver.

(** The arithmetic of [led_mc_calc_color_components] (LED multicolor
    class, outside the driver): the component stored for a requested
    brightness, a subled intensity and the maximum brightness. *)
Variable mc_component : Z → Z → Z → Z.

(** The SPI bus: the status [spi_sync] returns for a transfer. *)
Variable spi_sync : spi_transfer → Z.

(** The loop of [led_mc_calc_color_components] over the first
    [num_colors] subleds. *)
Fixpoint led_mc_calc_color_components_loop (max : Z) (n : nat) (i : nat)
    (subs : list mc_subled) (value : Z) : option (list mc_subled) :=
  match n with
  | O => Some subs
  | S n' =>
      s ← subs !! i;
      led_mc_calc_color_components_loop max n' (S i)
        (<[i := set_subled_brightness s
                  (mc_component value (intensity s) max)]> subs) value
  end.

(** [led_mc_calc_color_components(&ws281x->leds[num].led, brightness)]. *)
Definition led_mc_calc_color_components (num : nat) (value : Z) : M unit :=
  ws ← get_chain;
  l ← lift_option (leds ws !! num);
  subs ← lift_option
    (led_mc_calc_color_components_loop (max_brightness (led_cdev (led l)))
       (Z.to_nat (num_colors (led l))) 0 (subled_info (led l)) value);
  _ ← put_chain
    (set_leds ws (<[num := {| led := set_subled_info (led l) subs |}]> (leds ws)));
  emit (EvChannelStore num (mutex ws)).

Definition ws281x_update_pixelstream : M unit :=
  ws ← get_chain;
  buf ← lift_option (ws281x_update_pixelstream_buf ws);
  _ ← put_chain (set_pixelstream ws buf);
  emit (EvPixelstreamStore (mutex ws)).

(** [xfers.len] is the [int] by [u32] product, taken as an [unsigned]. *)
Definition ws281x_write : M Z :=
  ws ← get_chain;
  _ ← lift_option (spi ws);
  let xfers := {| tx_buf := pixelstream ws;
                  len := to_u32 (pixel_sz (info ws) * num_leds ws) |} in
  let ret := spi_sync xfers in
  _ ← emit (EvSpiSync xfers ret (mutex ws));
  if decide (ret ≠ 0%Z) then (_ ← emit (EvDevErr ret); mret ret)
  else mret 0%Z.

(** [dev] is the class device of [ws281x->leds[num]]. *)
Definition ws281x_brightness_set_blocking (num : nat) (value : Z) : M Z :=
  _ ← led_mc_calc_color_components num value;
  _ ← mutex_lock;
  _ ← ws281x_update_pixelstream;
  ret ← ws281x_write;
  _ ← mutex_unlock;
  mret ret.

End Driver.

(** ** Device setup *)

(** What the firmware and the kernel answer for one child node:
    whether [devm_kmalloc_array] succeeds, the (uninitialised) contents
    of the memory it returns, and the status of the LED registration. *)
Record child_env := {
  kmalloc_ok : bool;
  subled_mem : nat → mc_subled;
  register_ret : Z
}.

(** The environment of one probe. *)
Record probe_env := {
  match_data : ws281x_chipinfo;
  children : list child_env;
  bits_per_long : Z;           (* width of size_t *)
  kzalloc_ok : bool;
  mutex_init_ret : Z;
  spi_setup_ret : Z;
  kcalloc_ok : bool
}.

Definition store_color_index (subs : list mc_subled) (i : nat) (c : Z)
    : option (list mc_subled) :=
  s ← subs !! i;
  Some (<[i := set_color_index s c]> subs).

(** The body of [fwnode_for_each_child_node] in [ws281x_register_leds],
    for the child nodes [cs] still to visit.  Returns the status, the
    array and the events. *)
Fixpoint ws281x_register_leds_loop (ws : ws281x_array)
    (cs : list child_env) (num : nat)
    : option (Z * ws281x_array * list event) :=
  match cs with
  | [] => Some (0%Z, ws, [])
  | c :: cs' =>
      mc_led_info ←
        (if kmalloc_ok c
         then Some (subled_mem c <$> seq 0 (Z.to_nat (ch_per_led (info ws))))
         else None);
      mc_led_info ← store_color_index mc_led_info 0 LED_COLOR_ID_RED;
      mc_led_info ← store_color_index mc_led_info 1 LED_COLOR_ID_GREEN;
      mc_led_info ← store_color_index mc_led_info 2 LED_COLOR_ID_BLUE;
      _ ← leds ws !! num;
      let l := {| led := {|
                   led_cdev := {| cdev_brightness := LED_OFF;
                                  max_brightness := LED_FULL |};
                   num_colors := ch_per_led (info ws);
                   subled_info := mc_led_info |} |} in
      let ws := set_leds ws (<[num := l]> (leds ws)) in
      let ret := register_ret c in
      if decide (ret ≠ 0%Z)
      then Some (ret, ws, [EvAllocSubleds num; EvRegisterLed num ret])
      else
        '(ret', ws', evs) ← ws281x_register_leds_loop ws cs' (S num);
        Some (ret', ws', EvAllocSubleds num :: EvRegisterLed num ret :: evs)
  end.

Definition ws281x_register_leds (env : probe_env) (ws : ws281x_array)
    : option (Z * ws281x_array * list event) :=
  ws281x_register_leds_loop ws (children env) 0.

(** What a probe leaves behind: its status, the array reachable through
    the driver data of the SPI device, and the events. *)
Record probe_result := {
  probe_ret : Z;
  drvdata : option ws281x_array;
  probe_trace : list event
}.

(** A zeroed [struct ws281x_led]. *)
Definition zero_led : ws281x_led :=
  {| led := {| led_cdev := {| cdev_brightness := 0; max_brightness := 0 |};
               num_colors := 0; subled_info := [] |} |}.

(** [device_get_child_node_count] answers with the number of child
    nodes; the size of the pixelstream is a product in [size_t].  The
    three configuration fields of [spi] are all overwritten, so the
    incoming device does not appear. *)
Definition ws281x_spi_probe (env : probe_env) : option probe_result :=
  let count := Z.of_nat (length (children env)) in
  if decide (count = 0%Z) then
    Some {| probe_ret := - EINVAL; drvdata := None;
            probe_trace := [EvDevErr (- EINVAL)] |}
  else
  let tr := [EvAllocArray count] in
  if negb (kzalloc_ok env) then
    Some {| probe_ret := - ENOMEM; drvdata := None; probe_trace := tr |}
  else
  let ws281x := {| spi := None; mutex := false; info := match_data env;
                   pixelstream := []; num_leds := to_u32 count;
                   leds := replicate (Z.to_nat count) zero_led |} in
  let tr := tr ++ [EvSetDrvdata; EvMutexInit (mutex_init_ret env)] in
  if decide (mutex_init_ret env ≠ 0%Z) then
    Some {| probe_ret := mutex_init_ret env; drvdata := Some ws281x;
            probe_trace := tr ++ [EvDevErr (mutex_init_ret env)] |}
  else
  let spi := {| mode := SPI_MODE_0; bits_per_word := 8;
                max_speed_hz := write_freq (info ws281x) |} in
  let tr := tr ++ [EvSpiSetup spi (spi_setup_ret env)] in
  if decide (spi_setup_ret env ≠ 0%Z) then
    Some {| probe_ret := spi_setup_ret env; drvdata := Some ws281x;
            probe_trace := tr ++ [EvDevErr (spi_setup_ret env)] |}
  else
  let n := ((pixel_sz (info ws281x) * count) mod 2 ^ bits_per_long env)%Z in
  let tr := tr ++ [EvAllocPixelstream n] in
  if negb (kcalloc_ok env) then
    Some {| probe_ret := - ENOMEM; drvdata := Some ws281x; probe_trace := tr |}
  else
  let ws281x := set_pixelstream ws281x (replicate (Z.to_nat n) 0%Z) in
  let ws281x := set_spi ws281x spi in
  '(ret, ws281x, evs) ← ws281x_register_leds env ws281x;
  let tr := tr ++ evs in
  if decide (ret ≠ 0%Z) then
    Some {| probe_ret := ret; drvdata := Some ws281x;
            probe_trace := tr ++ [EvDevErr ret] |}
  else
    Some {| probe_ret := 0; drvdata := Some ws281x; probe_trace := tr |}.

(** ** Vocabulary of the properties *)

(** The number read from bits 7 down to 0 of [pixel], most significant
    first. *)
Definition byte_of_bits_msb (pixel : Z) : Z :=
  foldl (λ a bit, 2 * a + Z.b2z bit)%Z 0%Z
    ((λ i : nat, Z.testbit pixel (7 - Z.of_nat i)) <$> seq 0 8).

(** The bytes a rebuild stores for one LED: the symbols of subled 1,
    then of subled 0, then of subled 2, each brightness converted to
    [unsigned char]. *)
Definition pixel_of_led (info : ws281x_chipinfo) (l : ws281x_led) : list Z :=
  let n := Z.to_nat (subpixel_sz info) in
  match subled_info (led l) with
  | s0 :: s1 :: s2 :: _ =>
      subpixel_symbols info n (to_u8 (brightness s1))
      ++ subpixel_symbols info n (to_u8 (brightness s0))
      ++ subpixel_symbols info n (to_u8 (brightness s2))
  | _ => []
  end.

(** An LED whose subled array has the three entries the rebuild reads. *)
Definition led_ok (l : ws281x_led) : Prop :=
  3 ≤ length (subled_info (led l)).

(** A chain whose arrays have the sizes the probe gives them: one LED
    structure per LED, [pixel_sz] bytes of pixelstream per LED, at least
    three subleds per LED, and a pixel that holds three subpixels. *)
Definition chain_wf (ws : ws281x_array) : Prop :=
  3 * Z.to_nat (subpixel_sz (info ws)) ≤ Z.to_nat (pixel_sz (info ws)) ∧
  length (leds ws) = Z.to_nat (num_leds ws) ∧
  length (pixelstream ws)
    = Z.to_nat (num_leds ws) * Z.to_nat (pixel_sz (info ws)) ∧
  Forall led_ok (leds ws).

(** An LED on which [led_mc_calc_color_components] stays inside the
    subled array. *)
Definition led_colors_ok (l : ws281x_led) : Prop :=
  Z.to_nat (num_colors (led l)) ≤ length (subled_info (led l)).

(** An LED as [ws281x_register_leds] leaves it: [ch_per_led] subleds,
    of which subled 0 is red, subled 1 green and subled 2 blue. *)
Definition led_registered (info : ws281x_chipinfo) (l : ws281x_led) : Prop :=
  num_colors (led l) = ch_per_led info ∧
  length (subled_info (led l)) = Z.to_nat (ch_per_led info) ∧
  ∃ rest : list Z,
    color_index <$> subled_info (led l)
    = LED_COLOR_ID_RED :: LED_COLOR_ID_GREEN :: LED_COLOR_ID_BLUE :: rest.

(** The LED array after [led_mc_calc_color_components] on LED [num]. *)
Definition updated_leds (mc_component : Z → Z → Z → Z) (ws : ws281x_array)
    (num : nat) (value : Z) : option (list ws281x_led) :=
  l ← leds ws !! num;
  subs ← led_mc_calc_color_components_loop mc_component
            (max_brightness (led_cdev (led l)))
            (Z.to_nat (num_colors (led l))) 0 (subled_info (led l)) value;
  Some (<[num := {| led := set_subled_info (led l) subs |}]> (leds ws)).

(** The transfer [ws281x_write] submits for a chain. *)
Definition transfer_of (ws : ws281x_array) : spi_transfer :=
  {| tx_buf := pixelstream ws;
     len := to_u32 (pixel_sz (info ws) * num_leds ws) |}.

(** Whether the mutex was held when a store or a transfer happened. *)
Definition held_during (e : event) : bool :=
  match e with
  | EvChannelStore _ locked => locked
  | EvPixelstreamStore locked => locked
  | EvSpiSync _ _ locked => locked
  | _ => true
  end.

(** The [spi_sync] calls of a trace. *)
Definition is_spi_sync (e : event) : bool :=
  match e with
  | EvSpiSync _ _ _ => true
  | _ => false
  end.

(** The allocations of a pixelstream in a trace. *)
Definition is_alloc_pixelstream (e : event) : bool :=
  match e with
  | EvAllocPixelstream _ => true
  | _ => false
  end.

(** The component arithmetic of the LED multicolor class, used where a
    concrete one is needed. *)
Definition scaled_component (value intensity max : Z) : Z :=
  (to_u32 (value * intensity) / max)%Z.

(** The chains a driver instance goes through: the one a successful
    probe leaves, and from each of them the one left by a call of
    [ws281x_brightness_set_blocking] that returns. *)
Inductive reachable (env : probe_env) : ws281x_array → Prop :=
| reachable_probe (r : probe_result) (ws : ws281x_array) :
    ws281x_spi_probe env = Some r → probe_ret r = 0%Z →
    drvdata r = Some ws → reachable env ws
| reachable_set (ws : ws281x_array) (mc_component : Z → Z → Z → Z)
    (spi_sync : spi_transfer → Z) (num : nat) (value ret : Z) (m : machine) :
    reachable env ws →
    run (ws281x_brightness_set_blocking mc_component spi_sync num value) ws
      = Some (ret, m) →
    reachable env (chain m).

(** What holds of every such chain. *)
Definition chain_inv (env : probe_env) (ws : ws281x_array) : Prop :=
  let count := Z.of_nat (length (children env)) in
  info ws = match_data env ∧
  num_leds ws = to_u32 count ∧
  length (leds ws) = length (children env) ∧
  length (pixelstream ws)
    = Z.to_nat ((pixel_sz (match_data env) * count) mod 2 ^ bits_per_long env) ∧
  mutex ws = false ∧
  is_Some (spi ws) ∧
  Forall (led_registered (match_data env)) (leds ws).

(** A registered LED with the given channel values in subleds 0, 1, 2. *)
Definition example_led (r g b : Z) : ws281x_led :=
  {| led := {|
       led_cdev := {| cdev_brightness := LED_FULL; max_brightness := LED_FULL |};
       num_colors := 3;
       subled_info := [
         {| color_index := LED_COLOR_ID_RED; brightness := r;
            intensity := r; channel := 0 |};
         {| color_index := LED_COLOR_ID_GREEN; brightness := g;
            intensity := g; channel := 0 |};
         {| color_index := LED_COLOR_ID_BLUE; brightness := b;
            intensity := b; channel := 0 |} ] |} |}.

(** A chain of two WS2812B LEDs, the first dark, the second full red. *)
Definition example_chain : ws281x_array :=
  {| spi := Some {| mode := SPI_MODE_0; bits_per_word := 8;
                    max_speed_hz := write_freq ws2812b_info |};
     mutex := false;
     info := ws2812b_info;
     pixelstream := replicate 48 0%Z;
     num_leds := 2;
     leds := [example_led 0 0 0; example_led 255 0 0] |}.

(** A child node for which every call succeeds; the memory of its
    subleds starts with arbitrary contents. *)
Definition example_child : child_env :=
  {| kmalloc_ok := true;
     subled_mem := λ _, {| color_index := 0xdead; brightness := 0xbeef;
                           intensity := 255; channel := 0 |};
     register_ret := 0 |}.

(** A probe environment with [n] such child nodes on a 64-bit kernel. *)
Definition example_env (n : nat) : probe_env :=
  {| match_data := ws2812b_info;
     children := replicate n example_child;
     bits_per_long := 64;
     kzalloc_ok := true;
     mutex_init_ret := 0;
     spi_setup_ret := 0;
     kcalloc_ok := true |}.

(** The frame of a whole LED array: the pixels of its LEDs in array
    order. *)
Definition frame_of_leds (info : ws281x_chipinfo) (ls : list ws281x_led)
    : list Z :=
  concat (pixel_of_led info <$> ls).

(** Two LEDs whose subled brightness values agree in their low eight bits. *)
Definition same_low_bytes (l l' : ws281x_led) : Prop :=
  Forall2 (λ s s', to_u8 (brightness s) = to_u8 (brightness s'))
    (subled_info (led l)) (subled_info (led l')).

(** The SPI configuration the probe writes. *)
Definition probe_spi_device (info : ws281x_chipinfo) : spi_device :=
  {| mode := SPI_MODE_0; bits_per_word := 8; max_speed_hz := write_freq info |}.

(** A chip table with ten symbols per subpixel and four channels, as a
    variant of the WS2812B one. *)
Definition wide_info : ws281x_chipinfo :=
  {| zero_val := 0xc0; one_val := 0xfc; write_freq := 6400000;
     subpixel_sz := 10; ch_per_led := 4; pixel_sz := 40 |}.

(** One LED under [wide_info]; its pixelstream holds 0x55 throughout. *)
Definition wide_chain : ws281x_array :=
  {| spi := Some (probe_spi_device wide_info);
     mutex := false;
     info := wide_info;
     pixelstream := replicate 40 0x55%Z;
     num_leds := 1;
     leds := [example_led 1 2 3] |}.


(** A child node for which every call of the registration succeeds. *)
Definition child_ok (c : child_env) : Prop :=
  kmalloc_ok c = true ∧ register_ret c = 0%Z.

(** The class-device fields the registration writes. *)
Definition registered_cdev : led_classdev :=
  {| cdev_brightness := LED_OFF; max_brightness := LED_FULL |}.


(** A child node whose LED registration fails with status [ret]. *)
Definition failing_child (ret : Z) : child_env :=
  {| kmalloc_ok := true;
     subled_mem := subled_mem example_child;
     register_ret := ret |}.

(** Three child nodes, the second of which fails to register with -16. *)
Definition second_child_fails_env : probe_env :=
  {| match_data := ws2812b_info;
     children := [example_child; failing_child (-16); example_child];
     bits_per_long := 64;
     kzalloc_ok := true;
     mutex_init_ret := 0;
     spi_setup_ret := 0;
     kcalloc_ok := true |}.

(** A child node for whose subleds no memory is left. *)
Definition starved_child : child_env :=
  {| kmalloc_ok := false;
     subled_mem := subled_mem example_child;
     register_ret := 0 |}.

(** * Properties *)

(** ** Bits of a subpixel *)

Lemma land_0x80_testbit (pixel : Z) :
  bool_decide (Z.land pixel 0x80 ≠ 0%Z) = Z.testbit pixel 7.
Proof.
  destruct (Z.testbit pixel 7) eqn:Hbit.
  - apply bool_decide_eq_true_2. intros Hz.
    assert (Z.testbit (Z.land pixel 0x80) 7 = true) as Hl
      by (rewrite Z.land_spec, Hbit; reflexivity).
    rewrite Hz in Hl. discriminate.
  - apply bool_decide_eq_false_2. intros Hnz. apply Hnz.
    apply Z.bits_inj'. intros m Hm.
    rewrite Z.land_spec, Z.bits_0.
    change 0x80%Z with (2 ^ 7)%Z. rewrite Z.pow2_bits_eqb by lia.
    destruct (Z.eqb_spec 7 m) as [<-|_].
    + rewrite Hbit. reflexivity.
    + apply andb_false_r.
Qed.

Lemma shifted_pixel_testbit (pixel : Z) (k : nat) :
  Z.testbit (to_u8 (Z.shiftl pixel 1)) (7 - Z.of_nat k)
  = Z.testbit pixel (7 - Z.of_nat (S k)).
Proof.
  unfold to_u8.
  destruct (decide (Z.of_nat k ≤ 7)%Z) as [Hk|Hk].
  - rewrite Z.mod_pow2_bits_low by lia.
    rewrite Z.shiftl_spec by lia. f_equal. lia.
  - rewrite !Z.testbit_neg_r by lia. reflexivity.
Qed.

(** ** Stores *)

Lemma store_Some (buf : buffer) (i : nat) (v : Z) :
  i < length buf → store buf i v = Some (<[i:=v]> buf).
Proof. intros Hi. unfold store. rewrite decide_True by done. done. Qed.

(** ** [ws281x_format_subpixel] *)

Lemma ws281x_format_subpixel_loop_spec (info : ws281x_chipinfo) (n : nat) :
  ∀ (buf : buffer) (base i : nat) (pixel : Z),
    base + i + n ≤ length buf →
    ∃ buf' : buffer,
      ws281x_format_subpixel_loop info n buf base i pixel = Some buf' ∧
      length buf' = length buf ∧
      (∀ j, j < base + i ∨ base + i + n ≤ j → buf' !! j = buf !! j) ∧
      (∀ k, k < n →
         buf' !! (base + i + k)
         = Some (symbol_of_bit info (Z.testbit pixel (7 - Z.of_nat k)))).
Proof.
  induction n as [|n IH]; intros buf base i pixel Hlen; simpl.
  - exists buf. split_and!; [done|done|done|]. intros k Hk. lia.
  - rewrite store_Some by lia. simpl.
    set (v := if bool_decide _ then _ else _).
    destruct (IH (<[base + i := v]> buf) base (S i)
                (to_u8 (Z.shiftl pixel 1))) as (buf' & Hrun & Hl & Hout & Hin).
    { rewrite length_insert. lia. }
    exists buf'. rewrite length_insert in Hl. split_and!; [done|done| |].
    + intros j Hj. rewrite Hout by lia.
      apply list_lookup_insert_ne. lia.
    + intros [|k] Hk.
      * rewrite Nat.add_0_r, Hout by lia.
        rewrite list_lookup_insert_eq by lia. f_equal.
        subst v. rewrite land_0x80_testbit. reflexivity.
      * replace (base + i + S k) with (base + S i + k) by lia.
        rewrite Hin by lia. rewrite shifted_pixel_testbit. reflexivity.
Qed.

Lemma ws281x_format_subpixel_spec (info : ws281x_chipinfo) (buf : buffer)
    (off : nat) (pixel : Z) :
  off + Z.to_nat (subpixel_sz info) ≤ length buf →
  ∃ buf' : buffer,
    ws281x_format_subpixel info buf off pixel = Some buf' ∧
    length buf' = length buf ∧
    (∀ j, j < off ∨ off + Z.to_nat (subpixel_sz info) ≤ j →
       buf' !! j = buf !! j) ∧
    (∀ k, k < Z.to_nat (subpixel_sz info) →
       buf' !! (off + k)
       = Some (symbol_of_bit info (Z.testbit pixel (7 - Z.of_nat k)))).
Proof.
  intros Hlen. unfold ws281x_format_subpixel.
  destruct (ws281x_format_subpixel_loop_spec info
              (Z.to_nat (subpixel_sz info)) buf off 0 pixel)
    as (buf' & Hrun & Hl & Hout & Hin); [lia|].
  exists buf'. split_and!; [done|done| |].
  - intros j Hj. apply Hout. lia.
  - intros k Hk. rewrite <- Hin by done. f_equal. lia.
Qed.

(** ** Regions *)

Lemma region_lookup (buf : buffer) (off n k : nat) :
  k < n → region buf off n !! k = buf !! (off + k).
Proof.
  intros Hk. unfold region. rewrite lookup_take_lt by done.
  apply lookup_drop.
Qed.

Lemma region_symbols (info : ws281x_chipinfo) (buf : buffer)
    (off n : nat) (pixel : Z) :
  (∀ k, k < n →
     buf !! (off + k)
     = Some (symbol_of_bit info (Z.testbit pixel (7 - Z.of_nat k)))) →
  region buf off n = subpixel_symbols info n pixel.
Proof.
  intros Hin. apply list_eq. intros k. unfold subpixel_symbols.
  rewrite list_lookup_fmap.
  destruct (decide (k < n)) as [Hk|Hk].
  - rewrite region_lookup, Hin by done.
    rewrite lookup_seq_lt by done. reflexivity.
  - unfold region. rewrite lookup_take_ge by lia.
    rewrite lookup_seq_ge by lia. reflexivity.
Qed.

Lemma region_ext (b1 b2 : buffer) (off n : nat) :
  (∀ k, k < n → b1 !! (off + k) = b2 !! (off + k)) →
  region b1 off n = region b2 off n.
Proof.
  intros Heq. apply list_eq. intros k.
  destruct (decide (k < n)) as [Hk|Hk].
  - rewrite !region_lookup by done. auto.
  - unfold region. rewrite !lookup_take_ge by lia. reflexivity.
Qed.

(** ** Reading symbols back *)

Lemma bit_of_symbol_of_bit (info : ws281x_chipinfo) (bit : bool) :
  one_val info ≠ zero_val info →
  bit_of_symbol info (symbol_of_bit info bit) = Some bit.
Proof.
  intros Hne. unfold bit_of_symbol, symbol_of_bit. destruct bit.
  - rewrite decide_True by done. done.
  - rewrite decide_False by congruence. rewrite decide_True by done. done.
Qed.

Lemma decode_symbols_of_bits (info : ws281x_chipinfo) (bits : list bool) :
  one_val info ≠ zero_val info →
  ∀ acc : Z,
    decode_symbols info acc (symbol_of_bit info <$> bits)
    = Some (foldl (λ a bit, 2 * a + Z.b2z bit)%Z acc bits).
Proof.
  intros Hne. induction bits as [|bit bits IH]; intros acc; simpl; [done|].
  rewrite bit_of_symbol_of_bit by done. simpl. apply IH.
Qed.

(** The eight bits of a byte give the byte back; checked on each of
    the 256 bytes. *)
Lemma byte_of_bits_msb_id (pixel : Z) :
  (0 ≤ pixel < 256)%Z → byte_of_bits_msb pixel = pixel.
Proof.
  intros Hp.
  assert (Forall (λ p, byte_of_bits_msb p = p) (seqZ 0 256)) as Hall.
  { apply (bool_decide_unpack (Forall (λ p, byte_of_bits_msb p = p) (seqZ 0 256))).
    vm_compute. exact I. }
  rewrite Forall_forall in Hall. apply Hall.
  apply list_elem_of_In, elem_of_seqZ. lia.
Qed.

Lemma decode_subpixel_symbols (info : ws281x_chipinfo) (pixel : Z) :
  one_val info ≠ zero_val info → (0 ≤ pixel < 256)%Z →
  decode_symbols info 0 (subpixel_symbols info 8 pixel) = Some pixel.
Proof.
  intros Hne Hp. unfold subpixel_symbols.
  rewrite (list_fmap_compose
             (λ i : nat, Z.testbit pixel (7 - Z.of_nat i)) (symbol_of_bit info)).
  rewrite decode_symbols_of_bits by done.
  f_equal. apply byte_of_bits_msb_id. done.
Qed.

(** C1.  For every brightness byte, [ws281x_format_subpixel] stores
    exactly [subpixel_sz] symbol bytes and touches nothing else; the
    symbol at position [k] is [one_val] when bit [7 - k] of the byte is
    set and [zero_val] otherwise, so the byte is laid out most
    significant bit first.  With the eight symbols of a byte and two
    distinct symbol values, reading the emitted symbols back position by
    position gives the original byte. *)
Theorem format_subpixel_msb_first_roundtrip (info : ws281x_chipinfo)
    (buf : buffer) (off : nat) (pixel : Z) :
  (0 ≤ pixel < 256)%Z →
  off + Z.to_nat (subpixel_sz info) ≤ length buf →
  ∃ buf' : buffer,
    ws281x_format_subpixel info buf off pixel = Some buf' ∧
    length buf' = length buf ∧
    (∀ j, j < off ∨ off + Z.to_nat (subpixel_sz info) ≤ j →
       buf' !! j = buf !! j) ∧
    (∀ k, k < Z.to_nat (subpixel_sz info) →
       buf' !! (off + k)
       = Some (if Z.testbit pixel (7 - Z.of_nat k)
               then one_val info else zero_val info)) ∧
    (subpixel_sz info = BITS_PER_BYTE → one_val info ≠ zero_val info →
       decode_symbols info 0 (region buf' off (Z.to_nat (subpixel_sz info)))
       = Some pixel).
Proof.
  intros Hp Hlen.
  destruct (ws281x_format_subpixel_spec info buf off pixel Hlen)
    as (buf' & Hrun & Hl & Hout & Hin).
  exists buf'. split_and!; [done|done|done|done|].
  intros Hsz Hne.
  rewrite (region_symbols info buf' off _ pixel Hin).
  rewrite Hsz. change (Z.to_nat BITS_PER_BYTE) with 8.
  apply decode_subpixel_symbols; done.
Qed.

(** The symbols of 0xA5 under the WS2812B constants, and their reading. *)
Lemma format_subpixel_msb_first_roundtrip_witness :
  ∃ buf' : buffer,
    ws281x_format_subpixel ws2812b_info (replicate 8 0%Z) 0 0xA5 = Some buf' ∧
    buf' = [0xFC; 0xC0; 0xFC; 0xC0; 0xC0; 0xFC; 0xC0; 0xFC]%Z ∧
    decode_symbols ws2812b_info 0 (region buf' 0 8) = Some 0xA5%Z.
Proof.
  destruct (format_subpixel_msb_first_roundtrip ws2812b_info
              (replicate 8 0%Z) 0 0xA5)
    as (buf' & Hrun & _ & _ & _ & Hdec); [lia|vm_compute; lia|].
  exists buf'. split_and!.
  - exact Hrun.
  - vm_compute in Hrun. injection Hrun as <-. reflexivity.
  - apply Hdec; [reflexivity|discriminate].
Defined.

(** ** [ws2812_format_pixel_grb] *)

(** On a buffer of its own, [ws281x_format_subpixel] leaves the symbols
    of the subpixel and nothing else. *)
Lemma ws281x_format_subpixel_fresh (info : ws281x_chipinfo) (pixel : Z) :
  ws281x_format_subpixel info
    (replicate (Z.to_nat (subpixel_sz info)) 0%Z) 0 pixel
  = Some (subpixel_symbols info (Z.to_nat (subpixel_sz info)) pixel).
Proof.
  set (n := Z.to_nat (subpixel_sz info)).
  destruct (ws281x_format_subpixel_spec info (replicate n 0%Z) 0 pixel)
    as (buf' & Hrun & Hl & _ & Hin).
  { rewrite length_replicate. lia. }
  rewrite Hrun. f_equal.
  rewrite <- (region_symbols info buf' 0 n pixel Hin).
  unfold region. rewrite drop_0, take_ge; [done|].
  rewrite Hl, length_replicate. done.
Qed.

Lemma ws2812_format_pixel_grb_spec (info : ws281x_chipinfo) (buf : buffer)
    (p : nat) (g r b : Z) :
  let n := Z.to_nat (subpixel_sz info) in
  p + 3 * n ≤ length buf →
  ∃ buf' : buffer,
    ws2812_format_pixel_grb info buf p g r b = Some buf' ∧
    length buf' = length buf ∧
    (∀ j, j < p ∨ p + 3 * n ≤ j → buf' !! j = buf !! j) ∧
    region buf' p n = subpixel_symbols info n g ∧
    region buf' (p + n) n = subpixel_symbols info n r ∧
    region buf' (p + n + n) n = subpixel_symbols info n b.
Proof.
  intros n Hlen. unfold ws2812_format_pixel_grb. fold n.
  destruct (ws281x_format_subpixel_spec info buf p g)
    as (b1 & Hrun1 & Hl1 & Hout1 & Hin1); [fold n; lia|].
  destruct (ws281x_format_subpixel_spec info b1 (p + n) r)
    as (b2 & Hrun2 & Hl2 & Hout2 & Hin2); [fold n; lia|].
  destruct (ws281x_format_subpixel_spec info b2 (p + n + n) b)
    as (b3 & Hrun3 & Hl3 & Hout3 & Hin3); [fold n; lia|].
  fold n in Hout1, Hin1, Hout2, Hin2, Hout3, Hin3.
  rewrite Hrun1. simpl. rewrite Hrun2. simpl. rewrite Hrun3.
  exists b3. split_and!; [done|congruence| | | |].
  - intros j Hj. rewrite Hout3, Hout2, Hout1 by lia. done.
  - apply region_symbols. intros k Hk.
    rewrite Hout3, Hout2 by lia. auto.
  - apply region_symbols. intros k Hk.
    rewrite Hout3 by lia. auto.
  - apply region_symbols. auto.
Qed.

(** C2.  [ws2812_format_pixel_grb] stores exactly [pixel_sz] bytes at
    the position it is given and leaves the rest of the buffer alone:
    the formatted green subpixel at offset 0, the formatted red subpixel
    at offset [subpixel_sz] and the formatted blue subpixel at offset
    [2 * subpixel_sz], where [pixel_sz] is three subpixels as in the
    chip table. *)
Theorem format_pixel_grb_layout (info : ws281x_chipinfo) (buf : buffer)
    (off : nat) (g r b : Z) :
  pixel_sz info = (subpixel_sz info * 3)%Z →
  off + Z.to_nat (pixel_sz info) ≤ length buf →
  let n := Z.to_nat (subpixel_sz info) in
  ∃ buf' : buffer,
    ws2812_format_pixel_grb info buf off g r b = Some buf' ∧
    length buf' = length buf ∧
    (∀ j, j < off ∨ off + Z.to_nat (pixel_sz info) ≤ j →
       buf' !! j = buf !! j) ∧
    ws281x_format_subpixel info (replicate n 0%Z) 0 g
      = Some (region buf' off n) ∧
    ws281x_format_subpixel info (replicate n 0%Z) 0 r
      = Some (region buf' (off + n) n) ∧
    ws281x_format_subpixel info (replicate n 0%Z) 0 b
      = Some (region buf' (off + 2 * n) n) ∧
    region buf' off (Z.to_nat (pixel_sz info))
      = subpixel_symbols info n g ++ subpixel_symbols info n r
          ++ subpixel_symbols info n b.
Proof.
  intros Hsz Hlen n.
  destruct (ws2812_format_pixel_grb_spec info buf off g r b)
    as (buf' & Hrun & Hl & Hout & Hg & Hr & Hb); [fold n; lia|].
  fold n in Hout, Hg, Hr, Hb.
  exists buf'. split_and!; [done|done| | | | |].
  - intros j Hj. apply Hout. lia.
  - rewrite Hg. apply ws281x_format_subpixel_fresh.
  - rewrite Hr. apply ws281x_format_subpixel_fresh.
  - replace (off + 2 * n) with (off + n + n) by lia.
    rewrite Hb. apply ws281x_format_subpixel_fresh.
  - rewrite <- Hg, <- Hr, <- Hb. unfold region.
    replace (Z.to_nat (pixel_sz info)) with (n + (n + n)) by lia.
    rewrite <- !drop_drop. rewrite !take_take_drop. reflexivity.
Qed.

(** ** [ws281x_update_pixelstream] *)

Lemma region_app (buf : buffer) (off a b : nat) :
  region buf off (a + b) = region buf off a ++ region buf (off + a) b.
Proof.
  unfold region. rewrite <- drop_drop. rewrite take_take_drop. reflexivity.
Qed.

Lemma length_subpixel_symbols (info : ws281x_chipinfo) (n : nat) (pixel : Z) :
  length (subpixel_symbols info n pixel) = n.
Proof. unfold subpixel_symbols. rewrite length_fmap, length_seq. done. Qed.

Lemma ws281x_update_pixelstream_loop_spec (ws : ws281x_array) :
  let n := Z.to_nat (subpixel_sz (info ws)) in
  let ps := Z.to_nat (pixel_sz (info ws)) in
  3 * n ≤ ps →
  Forall led_ok (leds ws) →
  ∀ (cnt : nat) (buf : buffer) (p i : nat),
    i + cnt ≤ length (leds ws) →
    p + cnt * ps ≤ length buf →
    ∃ buf' : buffer,
      ws281x_update_pixelstream_loop ws cnt buf p i = Some buf' ∧
      length buf' = length buf ∧
      (∀ j, j < p ∨ p + cnt * ps ≤ j → buf' !! j = buf !! j) ∧
      (∀ m l, m < cnt → leds ws !! (i + m) = Some l →
         region buf' (p + m * ps) (3 * n) = pixel_of_led (info ws) l) ∧
      (∀ m t, m < cnt → 3 * n ≤ t < ps →
         buf' !! (p + m * ps + t) = buf !! (p + m * ps + t)).
Proof.
  intros n ps Hps Hleds cnt.
  induction cnt as [|cnt IH]; intros buf p i Hi Hlen.
  - exists buf. split_and!; [done|done|done| |]; intros; lia.
  - cbn [ws281x_update_pixelstream_loop].
    destruct (lookup_lt_is_Some_2 (leds ws) i) as [l Hl]; [lia|].
    rewrite Hl. cbn [mbind option_bind].
    pose proof (proj1 (Forall_lookup _ _) Hleds i l Hl) as Hok.
    unfold led_ok in Hok.
    destruct (subled_info (led l)) as [|s0 [|s1 [|s2 rest]]] eqn:Hsub;
      simpl in Hok; try lia.
    cbn [lookup list_lookup mbind option_bind].
    rewrite Nat.mul_succ_l in Hlen.
    destruct (ws2812_format_pixel_grb_spec (info ws) buf p
                (to_u8 (brightness s1)) (to_u8 (brightness s0))
                (to_u8 (brightness s2)))
      as (b1 & Hrun & Hl1 & Hout1 & Hg & Hr & Hb); [fold n; lia|].
    fold n in Hout1, Hg, Hr, Hb. rewrite Hrun. cbn [mbind option_bind].
    fold ps.
    destruct (IH b1 (p + ps) (S i)) as (buf' & Hrun' & Hlen' & Hout & Hpix & Hgap);
      [lia|lia|].
    exists buf'. split_and!; [done|congruence| | |].
    + intros j Hj. rewrite Nat.mul_succ_l in Hj.
      rewrite Hout, Hout1 by lia. done.
    + intros [|m] l' Hm Hl'.
      * rewrite Nat.add_0_r, Hl in Hl'.
        injection Hl' as <-.
        rewrite Nat.mul_0_l, Nat.add_0_r.
        rewrite (region_ext buf' b1).
        2:{ intros k Hk. apply Hout. lia. }
        unfold pixel_of_led. rewrite Hsub. fold n.
        replace (3 * n) with (n + (n + n)) by lia.
        rewrite !region_app, Hg, Hr.
        rewrite Hb. reflexivity.
      * rewrite Nat.mul_succ_l.
        replace (p + (m * ps + ps)) with (p + ps + m * ps) by lia.
        apply Hpix; [lia|].
        rewrite <- Hl'. f_equal. lia.
    + intros [|m] t Hm Ht.
      * rewrite Nat.mul_0_l, Nat.add_0_r.
        rewrite Hout, Hout1 by lia. done.
      * rewrite Nat.mul_succ_l.
        replace (p + (m * ps + ps) + t) with (p + ps + m * ps + t) by lia.
        rewrite Hgap by lia. apply Hout1. lia.
Qed.

Lemma ws281x_update_pixelstream_buf_spec (ws : ws281x_array) :
  chain_wf ws →
  let n := Z.to_nat (subpixel_sz (info ws)) in
  let ps := Z.to_nat (pixel_sz (info ws)) in
  ∃ buf' : buffer,
    ws281x_update_pixelstream_buf ws = Some buf' ∧
    length buf' = length (pixelstream ws) ∧
    (∀ m l, leds ws !! m = Some l →
       region buf' (m * ps) (3 * n) = pixel_of_led (info ws) l) ∧
    (∀ m t, m < length (leds ws) → 3 * n ≤ t < ps →
       buf' !! (m * ps + t) = pixelstream ws !! (m * ps + t)).
Proof.
  intros (Hps & Hleds & Hbuf & Hok) n ps.
  destruct (ws281x_update_pixelstream_loop_spec ws Hps Hok
              (Z.to_nat (num_leds ws)) (pixelstream ws) 0 0)
    as (buf' & Hrun & Hl & _ & Hpix & Hgap); [lia|fold ps; lia|].
  fold n ps in Hpix, Hgap.
  exists buf'. split_and!; [done|done| |].
  - intros m l Hm. apply (Hpix m l); [|done].
    apply lookup_lt_Some in Hm. lia.
  - intros m t Hm Ht. apply (Hgap m t); [lia|done].
Qed.

(** Every position inside the pixelstream lies in the pixel of one LED. *)
Lemma position_in_pixel (num ps j : nat) :
  j < num * ps → ∃ m t, m < num ∧ t < ps ∧ j = m * ps + t.
Proof.
  intros Hj. assert (ps ≠ 0) as Hps by (intros ->; lia).
  exists (j / ps), (j mod ps). split_and!.
  - apply Nat.Div0.div_lt_upper_bound. lia.
  - apply Nat.mod_upper_bound. done.
  - rewrite (Nat.div_mod_eq j ps) at 1. lia.
Qed.

Lemma lookup_in_region (buf : buffer) (off n t : nat) (xs : list Z) :
  region buf off n = xs → t < n → buf !! (off + t) = xs !! t.
Proof. intros <- Ht. symmetry. apply region_lookup. done. Qed.

(** C7.  Replacing the subleds of LED [k] alone and rebuilding again
    leaves every byte outside the [pixel_sz] bytes at offset
    [k * pixel_sz] as the previous rebuild left it; the bytes at that
    offset become the formatted pixel of the new values. *)
Theorem rebuild_changes_only_led_k (ws : ws281x_array) (k : nat)
    (l' : ws281x_led) :
  chain_wf ws → k < length (leds ws) → led_ok l' →
  let ps := Z.to_nat (pixel_sz (info ws)) in
  ∃ buf1 buf2 : buffer,
    ws281x_update_pixelstream_buf ws = Some buf1 ∧
    ws281x_update_pixelstream_buf
      (set_leds (set_pixelstream ws buf1) (<[k := l']> (leds ws)))
      = Some buf2 ∧
    length buf2 = length buf1 ∧
    (∀ j, ¬ (k * ps ≤ j < k * ps + ps) → buf2 !! j = buf1 !! j) ∧
    region buf2 (k * ps) (3 * Z.to_nat (subpixel_sz (info ws)))
      = pixel_of_led (info ws) l'.
Proof.
  intros Hwf Hk Hl' ps.
  destruct (ws281x_update_pixelstream_buf_spec ws Hwf)
    as (buf1 & Hrun1 & Hlen1 & Hpix1 & _).
  set (ws' := set_leds (set_pixelstream ws buf1) (<[k := l']> (leds ws))).
  assert (chain_wf ws') as Hwf'.
  { destruct Hwf as (Hps & Hleds & Hbuf & Hok).
    unfold chain_wf, ws'; simpl. rewrite length_insert.
    split_and!; [done|done|congruence|]. apply Forall_insert; done. }
  destruct (ws281x_update_pixelstream_buf_spec ws' Hwf')
    as (buf2 & Hrun2 & Hlen2 & Hpix2 & Hgap2).
  simpl in Hlen2, Hpix2, Hgap2. fold ps in Hpix1, Hpix2, Hgap2.
  rewrite length_insert in Hgap2.
  exists buf1, buf2. split_and!; [done|done|done| |].
  - intros j Hj.
    destruct (decide (j < length buf1)) as [Hin|Hout].
    2:{ rewrite !lookup_ge_None_2 by lia. done. }
    destruct Hwf as (Hps & Hleds & Hbuf & Hok). fold ps in Hps, Hbuf.
    destruct (position_in_pixel (Z.to_nat (num_leds ws)) ps j)
      as (m & t & Hm & Ht & ->); [lia|].
    assert (m ≠ k) as Hne by (intros ->; lia).
    destruct (decide (t < 3 * Z.to_nat (subpixel_sz (info ws)))) as [Hsym|Hgap].
    + destruct (lookup_lt_is_Some_2 (leds ws) m) as [l Hl]; [lia|].
      rewrite (lookup_in_region buf2 _ _ t _ (Hpix2 m l ltac:(
        rewrite list_lookup_insert_ne by done; exact Hl)) Hsym).
      rewrite (lookup_in_region buf1 _ _ t _ (Hpix1 m l Hl) Hsym). done.
    + apply Hgap2; lia.
  - apply Hpix2. apply list_lookup_insert_eq. done.
Qed.

(** Every byte of a formatted pixel is one of the two symbols. *)
Lemma pixel_of_led_symbols (info : ws281x_chipinfo) (l : ws281x_led) :
  Forall (λ x, x = zero_val info ∨ x = one_val info) (pixel_of_led info l).
Proof.
  assert (∀ n p, Forall (λ x, x = zero_val info ∨ x = one_val info)
                   (subpixel_symbols info n p)) as Hsym.
  { intros n p. unfold subpixel_symbols. apply Forall_fmap, Forall_true.
    intros i. simpl. unfold symbol_of_bit. destruct (Z.testbit _ _); auto. }
  unfold pixel_of_led.
  destruct (subled_info (led l)) as [|s0 [|s1 [|s2 rest]]]; try constructor.
  rewrite !Forall_app. auto.
Qed.

(** C10.  When a pixel is exactly three subpixels, a rebuild leaves no
    byte in the pixelstream other than [zero_val] and [one_val]; for
    the WS2812B constants every byte is 0xC0 or 0xFC. *)
Theorem rebuilt_frame_holds_only_symbols (ws : ws281x_array) :
  chain_wf ws →
  pixel_sz (info ws) = (subpixel_sz (info ws) * 3)%Z →
  ∃ buf' : buffer,
    ws281x_update_pixelstream_buf ws = Some buf' ∧
    Forall (λ x, x = zero_val (info ws) ∨ x = one_val (info ws)) buf' ∧
    (info ws = ws2812b_info → Forall (λ x, x = 0xC0%Z ∨ x = 0xFC%Z) buf').
Proof.
  intros Hwf Hsz.
  destruct (ws281x_update_pixelstream_buf_spec ws Hwf)
    as (buf' & Hrun & Hlen & Hpix & _).
  assert (Forall (λ x, x = zero_val (info ws) ∨ x = one_val (info ws)) buf')
    as Hall.
  { apply Forall_lookup. intros j x Hj.
    destruct Hwf as (Hps & Hleds & Hbuf & Hok).
    destruct (position_in_pixel (Z.to_nat (num_leds ws))
                (Z.to_nat (pixel_sz (info ws))) j)
      as (m & t & Hm & Ht & ->).
    { apply lookup_lt_Some in Hj. lia. }
    destruct (lookup_lt_is_Some_2 (leds ws) m) as [l Hl]; [lia|].
    rewrite (lookup_in_region buf' _ _ t _ (Hpix m l Hl)) in Hj by lia.
    exact (proj1 (Forall_lookup _ _) (pixel_of_led_symbols (info ws) l) t x Hj). }
  exists buf'. split_and!; [done|done|].
  intros Hinfo. rewrite Hinfo in Hall. exact Hall.
Qed.

(** ** The two-LED example *)

(** C5.  Two WS2812B LEDs, LED 0 at (r, g, b) = (0, 0, 0) and LED 1 at
    (255, 0, 0): whatever the 48 bytes of the pixelstream held before,
    the rebuild leaves 24 bytes 0xC0 for LED 0, then 8 bytes 0xC0
    (green), 8 bytes 0xFC (red) and 8 bytes 0xC0 (blue) for LED 1. *)
Theorem two_led_frame_example (ws : ws281x_array) (l0 l1 : ws281x_led) :
  info ws = ws2812b_info →
  num_leds ws = 2%Z →
  length (pixelstream ws) = 48 →
  leds ws = [l0; l1] →
  brightness <$> subled_info (led l0) = [0; 0; 0]%Z →
  brightness <$> subled_info (led l1) = [255; 0; 0]%Z →
  ∃ buf' : buffer,
    ws281x_update_pixelstream_buf ws = Some buf' ∧
    length buf' = 48 ∧
    buf' = replicate 24 0xC0%Z ++ replicate 8 0xC0%Z
           ++ replicate 8 0xFC%Z ++ replicate 8 0xC0%Z.
Proof.
  intros Hinfo Hnum Hlen Hleds H0 H1.
  assert (chain_wf ws) as Hwf.
  { unfold chain_wf. rewrite Hinfo, Hnum, Hlen, Hleds.
    split_and!; [vm_compute; lia|done|done|].
    repeat constructor; unfold led_ok.
    - rewrite <- (length_fmap brightness), H0. done.
    - rewrite <- (length_fmap brightness), H1. done. }
  destruct (ws281x_update_pixelstream_buf_spec ws Hwf)
    as (buf' & Hrun & Hl & Hpix & _).
  rewrite Hinfo, Hleds in Hpix. rewrite Hlen in Hl.
  pose proof (Hpix 0 l0 eq_refl) as P0.
  pose proof (Hpix 1 l1 eq_refl) as P1.
  change (Z.to_nat (pixel_sz ws2812b_info)) with 24 in P0, P1.
  change (3 * Z.to_nat (subpixel_sz ws2812b_info)) with 24 in P0, P1.
  exists buf'. split_and!; [done|done|].
  assert (buf' = region buf' 0 24 ++ region buf' 24 24) as ->.
  { change 24 with (0 + 24) at 3. rewrite <- region_app.
    unfold region. rewrite drop_0, take_ge; [done|lia]. }
  change (0 * 24) with 0 in P0. change (1 * 24) with 24 in P1.
  rewrite P0, P1. unfold pixel_of_led.
  destruct (subled_info (led l0)) as [|a0 [|a1 [|a2 [|? ?]]]]; try discriminate.
  destruct (subled_info (led l1)) as [|b0 [|b1 [|b2 [|? ?]]]]; try discriminate.
  simpl in H0, H1.
  injection H0 as -> -> ->. injection H1 as -> -> ->.
  vm_compute. reflexivity.
Qed.

Lemma two_led_frame_example_witness :
  ws281x_update_pixelstream_buf example_chain
  = Some (replicate 24 0xC0%Z ++ replicate 8 0xC0%Z
          ++ replicate 8 0xFC%Z ++ replicate 8 0xC0%Z).
Proof.
  destruct (two_led_frame_example example_chain
              (example_led 0 0 0) (example_led 255 0 0))
    as (buf' & Hrun & _ & ->); [reflexivity..|].
  exact Hrun.
Defined.

(** ** The update protocol, run from a given chain *)

Section Protocol.

Variable mc_component : Z → Z → Z → Z.
Variable spi_sync : spi_transfer → Z.

Lemma ws281x_update_pixelstream_loop_ext (ws ws' : ws281x_array) :
  info ws = info ws' → leds ws = leds ws' →
  ∀ n buf p i,
    ws281x_update_pixelstream_loop ws n buf p i
    = ws281x_update_pixelstream_loop ws' n buf p i.
Proof.
  intros Hinfo Hleds n. induction n as [|n IH]; intros buf p i; simpl; [done|].
  rewrite Hinfo, Hleds.
  destruct (leds ws' !! i) as [l|]; simpl; [|done].
  destruct (subled_info (led l) !! 1) as [g|]; simpl; [|done].
  destruct (subled_info (led l) !! 0) as [r|]; simpl; [|done].
  destruct (subled_info (led l) !! 2) as [b|]; simpl; [|done].
  destruct (ws2812_format_pixel_grb _ _ _ _ _ _) as [buf'|]; simpl; [|done].
  apply IH.
Qed.

Lemma run_led_mc_calc_color_components (ws : ws281x_array) (num : nat)
    (value : Z) :
  run (led_mc_calc_color_components mc_component num value) ws
  = (ls ← updated_leds mc_component ws num value;
     Some (tt, {| chain := set_leds ws ls;
                  trace := [EvChannelStore num (mutex ws)] |})).
Proof.
  unfold run, led_mc_calc_color_components, updated_leds.
  unfold mbind at 1 2 3 4, M_bind, get_chain, lift_option, put_chain, emit.
  simpl. destruct (leds ws !! num) as [l|]; simpl; [|done].
  destruct (led_mc_calc_color_components_loop _ _ _ _ _ _) as [subs|];
    simpl; done.
Qed.

(** One call of [ws281x_brightness_set_blocking], step by step: the
    subleds of LED [num] are rewritten, the mutex is taken, the
    pixelstream is rebuilt from the new subleds, one transfer is
    submitted and its status kept, the mutex is released. *)
Lemma run_ws281x_brightness_set_blocking (ws : ws281x_array) (num : nat)
    (value : Z) :
  run (ws281x_brightness_set_blocking mc_component spi_sync num value) ws
  = (ls ← updated_leds mc_component ws num value;
     if mutex ws then None else
     buf ← ws281x_update_pixelstream_buf (set_leds ws ls);
     _ ← spi ws;
     let ws' := set_pixelstream (set_leds ws ls) buf in
     let xfers := transfer_of ws' in
     let ret := spi_sync xfers in
     Some (ret,
           {| chain := ws';
              trace := [EvChannelStore num false; EvMutexLock;
                        EvPixelstreamStore true; EvSpiSync xfers ret true]
                       ++ (if decide (ret ≠ 0%Z) then [EvDevErr ret] else [])
                       ++ [EvMutexUnlock] |})).
Proof.
  unfold ws281x_brightness_set_blocking.
  unfold mbind at 1, M_bind. unfold run.
  pose proof (run_led_mc_calc_color_components ws num value) as Hcalc.
  unfold run in Hcalc. rewrite Hcalc. clear Hcalc.
  destruct (updated_leds mc_component ws num value) as [ls|]; simpl; [|done].
  unfold mutex_lock, ws281x_update_pixelstream, ws281x_write, mutex_unlock.
  unfold mbind, M_bind, get_chain, lift_option, put_chain, emit, mret, M_ret.
  simpl. destruct (mutex ws) eqn:Hm; simpl; [done|].
  unfold ws281x_update_pixelstream_buf. simpl.
  rewrite (ws281x_update_pixelstream_loop_ext _ (set_leds ws ls))
    by reflexivity.
  destruct (ws281x_update_pixelstream_loop _ _ _ _ _) as [buf|]; simpl; [|done].
  destruct (spi ws) as [dev|]; simpl; [|done].
  unfold transfer_of, set_pixelstream, set_leds, set_mutex. simpl.
  rewrite Hm.
  destruct (decide (spi_sync _ ≠ 0%Z)) as [Hret|Hret]; simpl.
  - reflexivity.
  - apply dec_stable in Hret. do 2 f_equal. symmetry. exact Hret.
Qed.

End Protocol.

(** ** [led_mc_calc_color_components] *)

Lemma led_mc_calc_color_components_loop_shape (mc_component : Z → Z → Z → Z)
    (max value : Z) (n : nat) :
  ∀ (i : nat) (subs subs' : list mc_subled),
    led_mc_calc_color_components_loop mc_component max n i subs value
      = Some subs' →
    color_index <$> subs' = color_index <$> subs.
Proof.
  induction n as [|n IH]; intros i subs subs' Hrun; simpl in Hrun.
  - congruence.
  - destruct (subs !! i) as [s|] eqn:Hs; simpl in Hrun; [|done].
    rewrite (IH _ _ _ Hrun). rewrite list_fmap_insert. simpl.
    apply list_insert_id. rewrite list_lookup_fmap, Hs. done.
Qed.

Lemma led_mc_calc_color_components_loop_total (mc_component : Z → Z → Z → Z)
    (max value : Z) (n : nat) :
  ∀ (i : nat) (subs : list mc_subled),
    i + n ≤ length subs →
    is_Some (led_mc_calc_color_components_loop mc_component max n i subs value).
Proof.
  induction n as [|n IH]; intros i subs Hlen; simpl; [done|].
  destruct (lookup_lt_is_Some_2 subs i) as [s Hs]; [lia|].
  rewrite Hs. simpl. apply IH. rewrite length_insert. lia.
Qed.

Lemma updated_leds_shape (mc_component : Z → Z → Z → Z) (ws : ws281x_array)
    (num : nat) (value : Z) (ls : list ws281x_led) :
  updated_leds mc_component ws num value = Some ls →
  ∃ l subs,
    leds ws !! num = Some l ∧
    color_index <$> subs = color_index <$> subled_info (led l) ∧
    ls = <[num := {| led := set_subled_info (led l) subs |}]> (leds ws).
Proof.
  unfold updated_leds. intros Hrun.
  destruct (leds ws !! num) as [l|]; simpl in Hrun; [|done].
  destruct (led_mc_calc_color_components_loop _ _ _ _ _ _) as [subs|] eqn:Hloop;
    simpl in Hrun; [|done].
  injection Hrun as <-. exists l, subs. split_and!; [done| |done].
  exact (led_mc_calc_color_components_loop_shape _ _ _ _ _ _ _ Hloop).
Qed.

Lemma updated_leds_total (mc_component : Z → Z → Z → Z) (ws : ws281x_array)
    (num : nat) (value : Z) (l : ws281x_led) :
  leds ws !! num = Some l → led_colors_ok l →
  is_Some (updated_leds mc_component ws num value).
Proof.
  intros Hl Hok. unfold updated_leds. rewrite Hl. simpl.
  destruct (led_mc_calc_color_components_loop_total mc_component
              (max_brightness (led_cdev (led l))) value
              (Z.to_nat (num_colors (led l))) 0 (subled_info (led l)))
    as [subs Hsubs]; [exact Hok|].
  rewrite Hsubs. simpl. done.
Qed.

Lemma updated_leds_wf (mc_component : Z → Z → Z → Z) (ws : ws281x_array)
    (num : nat) (value : Z) (ls : list ws281x_led) (buf : buffer) :
  chain_wf ws →
  updated_leds mc_component ws num value = Some ls →
  length buf = length (pixelstream ws) →
  chain_wf (set_pixelstream (set_leds ws ls) buf).
Proof.
  intros (Hps & Hleds & Hbuf & Hok) Hupd Hlen.
  destruct (updated_leds_shape _ _ _ _ _ Hupd) as (l & subs & Hl & Hcol & ->).
  unfold chain_wf. simpl. rewrite length_insert.
  split_and!; [done|done|congruence|].
  apply Forall_insert; [done|]. unfold led_ok. simpl.
  pose proof (proj1 (Forall_lookup _ _) Hok num l Hl) as Hl3.
  unfold led_ok in Hl3.
  rewrite <- (length_fmap color_index), Hcol, length_fmap. done.
Qed.

(** ** The mutex and what it covers *)

(** C3, as stated, fails: the subled brightness values are stored by
    [led_mc_calc_color_components] before [mutex_lock] is called, so a
    store to the channel state happens without the mutex. *)
Lemma channel_store_precedes_mutex_lock :
  ¬ (∀ (mc_component : Z → Z → Z → Z) (spi_sync : spi_transfer → Z)
       (ws : ws281x_array) (num : nat) (value ret : Z) (m : machine),
       run (ws281x_brightness_set_blocking mc_component spi_sync num value) ws
         = Some (ret, m) →
       forallb held_during (trace m) = true).
Proof.
  intros Hall.
  assert (∃ m : machine,
            run (ws281x_brightness_set_blocking scaled_component
                   (λ _, 0%Z) 1 255) example_chain = Some (0%Z, m) ∧
            forallb held_during (trace m) = false) as (m & Hrun & Hfree).
  { eexists. split; vm_compute; reflexivity. }
  rewrite (Hall _ _ _ _ _ _ _ Hrun) in Hfree. discriminate.
Qed.

(** C3, amended.  In every call of [ws281x_brightness_set_blocking]
    that returns, the events are, in this order: the store to the
    subleds of the LED (mutex not held), [mutex_lock], the rebuild of
    the pixelstream (mutex held), one transfer (mutex held), the error
    message if the transfer failed, [mutex_unlock]; the mutex is free
    afterwards, whether the transfer failed or not. *)
Theorem mutex_covers_rebuild_and_transfer (mc_component : Z → Z → Z → Z)
    (spi_sync : spi_transfer → Z) (ws : ws281x_array) (num : nat)
    (value ret : Z) (m : machine) :
  run (ws281x_brightness_set_blocking mc_component spi_sync num value) ws
    = Some (ret, m) →
  mutex ws = false ∧
  mutex (chain m) = false ∧
  ∃ xfers : spi_transfer,
    trace m = [EvChannelStore num false; EvMutexLock;
               EvPixelstreamStore true; EvSpiSync xfers ret true]
              ++ (if decide (ret ≠ 0%Z) then [EvDevErr ret] else [])
              ++ [EvMutexUnlock].
Proof.
  rewrite run_ws281x_brightness_set_blocking. intros Hrun.
  destruct (updated_leds _ _ _ _) as [ls|]; simpl in Hrun; [|done].
  destruct (mutex ws) eqn:Hm; [done|].
  destruct (ws281x_update_pixelstream_buf _) as [buf|]; simpl in Hrun; [|done].
  destruct (spi ws) as [dev|]; simpl in Hrun; [|done].
  injection Hrun as <- <-. simpl. split_and!; [done|done|].
  eexists. reflexivity.
Qed.

Lemma mutex_covers_rebuild_and_transfer_witness :
  ∃ m : machine,
    run (ws281x_brightness_set_blocking scaled_component (λ _, (-5)%Z) 1 255)
      example_chain = Some ((-5)%Z, m) ∧
    mutex (chain m) = false ∧
    ∃ xfers : spi_transfer,
      trace m = [EvChannelStore 1 false; EvMutexLock; EvPixelstreamStore true;
                 EvSpiSync xfers (-5) true; EvDevErr (-5); EvMutexUnlock].
Proof.
  assert (∃ m : machine,
            run (ws281x_brightness_set_blocking scaled_component
                   (λ _, (-5)%Z) 1 255) example_chain = Some ((-5)%Z, m))
    as [m Hrun] by (eexists; vm_compute; reflexivity).
  exists m. split; [exact Hrun|].
  exact (proj2 (mutex_covers_rebuild_and_transfer _ _ _ _ _ _ m Hrun)).
Defined.

(** ** Transfer failures *)

Lemma set_leds_pixelstream_same (ws : ws281x_array) (ls : list ws281x_led) :
  set_pixelstream (set_leds ws ls) (pixelstream ws) = set_leds ws ls.
Proof. reflexivity. Qed.

(** C4.  A call on a chain in its normal state (arrays of the probe's
    sizes, mutex free, SPI device set) returns exactly the status of its
    single [spi_sync]: the error when the transfer fails, 0 when it
    succeeds.  Failed or not, the chain keeps the subled values stored
    by the call and the frame built from them, and the frame submitted
    by a later call for another LED carries, at the position of this
    LED, the pixel of the values this call stored. *)
Theorem transfer_status_returned_state_kept (mc_component : Z → Z → Z → Z)
    (spi_sync : spi_transfer → Z) (ws : ws281x_array) (num : nat)
    (value : Z) (l : ws281x_led) :
  chain_wf ws → mutex ws = false → is_Some (spi ws) →
  leds ws !! num = Some l → led_colors_ok l →
  ∃ (ls : list ws281x_led) (buf : buffer) (m : machine),
    updated_leds mc_component ws num value = Some ls ∧
    ws281x_update_pixelstream_buf (set_leds ws ls) = Some buf ∧
    let xfers := {| tx_buf := buf;
                    len := to_u32 (pixel_sz (info ws) * num_leds ws) |} in
    run (ws281x_brightness_set_blocking mc_component spi_sync num value) ws
      = Some (spi_sync xfers, m) ∧
    List.filter is_spi_sync (trace m)
      = [EvSpiSync xfers (spi_sync xfers) true] ∧
    leds (chain m) = ls ∧
    pixelstream (chain m) = buf ∧
    ∀ (spi_sync2 : spi_transfer → Z) (num2 : nat) (value2 ret2 : Z)
      (m2 : machine),
      num2 ≠ num →
      run (ws281x_brightness_set_blocking mc_component spi_sync2 num2 value2)
        (chain m) = Some (ret2, m2) →
      ∃ (l' : ws281x_led) (xfers2 : spi_transfer),
        ls !! num = Some l' ∧
        EvSpiSync xfers2 ret2 true ∈ trace m2 ∧
        region (tx_buf xfers2) (num * Z.to_nat (pixel_sz (info ws)))
          (3 * Z.to_nat (subpixel_sz (info ws)))
        = pixel_of_led (info ws) l'.
Proof.
  intros Hwf Hm [dev Hspi] Hl Hcol.
  destruct (updated_leds_total mc_component ws num value l Hl Hcol)
    as [ls Hls].
  pose proof (updated_leds_wf _ _ _ _ _ (pixelstream ws) Hwf Hls eq_refl)
    as Hwf1.
  rewrite set_leds_pixelstream_same in Hwf1.
  destruct (ws281x_update_pixelstream_buf_spec _ Hwf1)
    as (buf & Hbuf & Hlen & _ & _).
  simpl in Hlen.
  exists ls, buf. eexists. split; [done|]. split; [done|].
  cbv zeta. split_and!.
  - rewrite run_ws281x_brightness_set_blocking.
    rewrite Hls. simpl. rewrite Hm, Hbuf. simpl. rewrite Hspi. simpl.
    reflexivity.
  - simpl. destruct (decide _); reflexivity.
  - reflexivity.
  - reflexivity.
  - simpl. intros spi_sync2 num2 value2 ret2 m2 Hne.
    set (ws' := set_pixelstream (set_leds ws ls) buf).
    pose proof (updated_leds_wf _ _ _ _ _ buf Hwf Hls Hlen) as Hwf'.
    fold ws' in Hwf'.
    rewrite run_ws281x_brightness_set_blocking. intros Hrun.
    destruct (updated_leds mc_component ws' num2 value2) as [ls2|] eqn:Hls2;
      simpl in Hrun; [|done].
    pose proof (updated_leds_wf _ _ _ _ _ (pixelstream ws') Hwf' Hls2 eq_refl)
      as Hwf2.
    rewrite set_leds_pixelstream_same in Hwf2.
    destruct (ws281x_update_pixelstream_buf_spec _ Hwf2)
      as (buf2 & Hbuf2 & _ & Hpix2 & _).
    rewrite Hm, Hbuf2 in Hrun. simpl in Hrun. rewrite Hspi in Hrun.
    simpl in Hrun. injection Hrun as <- <-.
    destruct (updated_leds_shape _ _ _ _ _ Hls2) as (l2 & subs2 & _ & _ & ->).
    destruct (lookup_lt_is_Some_2 ls num) as [l' Hl'].
    { destruct (updated_leds_shape _ _ _ _ _ Hls) as (? & ? & _ & _ & ->).
      rewrite length_insert. apply lookup_lt_Some in Hl. done. }
    exists l'. eexists. split_and!; [done| |].
    + simpl. rewrite !elem_of_cons. right; right; right; left. reflexivity.
    + simpl. apply (Hpix2 num l'). simpl.
      rewrite list_lookup_insert_ne by done. exact Hl'.
Qed.

Lemma example_chain_wf : chain_wf example_chain.
Proof.
  unfold chain_wf. split_and!; [vm_compute; lia|reflexivity|reflexivity|].
  repeat constructor; unfold led_ok; simpl; lia.
Qed.

Lemma transfer_status_returned_state_kept_witness :
  ∃ m : machine,
    run (ws281x_brightness_set_blocking scaled_component (λ _, (-5)%Z) 1 128)
      example_chain = Some ((-5)%Z, m) ∧
    brightness <$> subled_info (led (default zero_led (leds (chain m) !! 1)))
      = [128; 0; 0]%Z.
Proof.
  destruct (transfer_status_returned_state_kept scaled_component
              (λ _, (-5)%Z) example_chain 1 128 (example_led 255 0 0))
    as (ls & buf & m & Hls & _ & Hrun & _ & Hleds & _).
  - exact example_chain_wf.
  - reflexivity.
  - eexists. reflexivity.
  - reflexivity.
  - unfold led_colors_ok. simpl. lia.
  - exists m. split; [exact Hrun|].
    rewrite Hleds. vm_compute in Hls. injection Hls as <-. reflexivity.
Defined.

(** ** Device setup *)

(** C8.  With no child node the probe returns [-EINVAL] at once: its
    only event is the error message, nothing has been allocated, no LED
    registered and no array made reachable through the driver data. *)
Theorem probe_without_children_fails (env : probe_env) :
  children env = [] →
  ws281x_spi_probe env
  = Some {| probe_ret := (- EINVAL)%Z; drvdata := None;
            probe_trace := [EvDevErr (- EINVAL)%Z] |}.
Proof.
  intros Hnone. unfold ws281x_spi_probe. rewrite Hnone. reflexivity.
Qed.

Lemma probe_without_children_fails_witness :
  ws281x_spi_probe (example_env 0)
  = Some {| probe_ret := (-22)%Z; drvdata := None;
            probe_trace := [EvDevErr (-22)%Z] |}.
Proof. apply (probe_without_children_fails (example_env 0)). reflexivity. Defined.

(** ** Sizes are kept by every store *)

Lemma store_length (buf buf' : buffer) (i : nat) (v : Z) :
  store buf i v = Some buf' → length buf' = length buf.
Proof.
  unfold store. destruct (decide _); [|done].
  intros [= <-]. apply length_insert.
Qed.

Lemma ws281x_format_subpixel_loop_length (info : ws281x_chipinfo) (n : nat) :
  ∀ (buf buf' : buffer) (base i : nat) (pixel : Z),
    ws281x_format_subpixel_loop info n buf base i pixel = Some buf' →
    length buf' = length buf.
Proof.
  induction n as [|n IH]; intros buf buf' base i pixel Hrun; simpl in Hrun.
  - congruence.
  - destruct (store _ _ _) as [b1|] eqn:Hst; simpl in Hrun; [|done].
    rewrite (IH _ _ _ _ _ Hrun). exact (store_length _ _ _ _ Hst).
Qed.

Lemma ws2812_format_pixel_grb_length (info : ws281x_chipinfo)
    (buf buf' : buffer) (p : nat) (g r b : Z) :
  ws2812_format_pixel_grb info buf p g r b = Some buf' →
  length buf' = length buf.
Proof.
  unfold ws2812_format_pixel_grb, ws281x_format_subpixel. intros Hrun.
  destruct (ws281x_format_subpixel_loop _ _ buf _ _ _) as [b1|] eqn:H1;
    simpl in Hrun; [|done].
  destruct (ws281x_format_subpixel_loop _ _ b1 _ _ _) as [b2|] eqn:H2;
    simpl in Hrun; [|done].
  rewrite (ws281x_format_subpixel_loop_length _ _ _ _ _ _ _ Hrun).
  rewrite (ws281x_format_subpixel_loop_length _ _ _ _ _ _ _ H2).
  exact (ws281x_format_subpixel_loop_length _ _ _ _ _ _ _ H1).
Qed.

Lemma ws281x_update_pixelstream_loop_length (ws : ws281x_array) (n : nat) :
  ∀ (buf buf' : buffer) (p i : nat),
    ws281x_update_pixelstream_loop ws n buf p i = Some buf' →
    length buf' = length buf.
Proof.
  induction n as [|n IH]; intros buf buf' p i Hrun; simpl in Hrun.
  - congruence.
  - destruct (leds ws !! i) as [l|]; simpl in Hrun; [|done].
    destruct (subled_info (led l) !! 1) as [g|]; simpl in Hrun; [|done].
    destruct (subled_info (led l) !! 0) as [r|]; simpl in Hrun; [|done].
    destruct (subled_info (led l) !! 2) as [b|]; simpl in Hrun; [|done].
    destruct (ws2812_format_pixel_grb _ _ _ _ _ _) as [b1|] eqn:Hpix;
      simpl in Hrun; [|done].
    rewrite (IH _ _ _ _ Hrun).
    exact (ws2812_format_pixel_grb_length _ _ _ _ _ _ _ Hpix).
Qed.

(** ** Registration *)

Lemma store_color_index_spec (subs subs' : list mc_subled) (i : nat) (c : Z) :
  store_color_index subs i c = Some subs' →
  i < length subs ∧ length subs' = length subs ∧
  color_index <$> subs' = <[i := c]> (color_index <$> subs).
Proof.
  unfold store_color_index. intros Hrun.
  destruct (subs !! i) as [s|] eqn:Hs; simpl in Hrun; [|done].
  injection Hrun as <-. split_and!.
  - exact (lookup_lt_Some _ _ _ Hs).
  - apply length_insert.
  - rewrite list_fmap_insert. reflexivity.
Qed.

Lemma ws281x_register_leds_loop_spec (cs : list child_env) :
  ∀ (ws ws' : ws281x_array) (num : nat) (ret : Z) (evs : list event),
    ws281x_register_leds_loop ws cs num = Some (ret, ws', evs) →
    spi ws' = spi ws ∧ mutex ws' = mutex ws ∧ info ws' = info ws ∧
    pixelstream ws' = pixelstream ws ∧ num_leds ws' = num_leds ws ∧
    length (leds ws') = length (leds ws) ∧
    (∀ i, i < num → leds ws' !! i = leds ws !! i) ∧
    (ret = 0%Z → ∀ i l, num ≤ i < num + length cs →
       leds ws' !! i = Some l → led_registered (info ws) l) ∧
    Forall (λ e, ∃ k r, e = EvAllocSubleds k ∨ e = EvRegisterLed k r) evs.
Proof.
  induction cs as [|c cs IH]; intros ws ws' num ret evs Hrun;
    cbn [ws281x_register_leds_loop] in Hrun.
  - injection Hrun as <- <- <-. split_and!; try done.
    intros _ i l Hi. simpl in Hi. lia.
  - destruct (kmalloc_ok c); simpl in Hrun; [|done].
    destruct (store_color_index _ 0 _) as [m0|] eqn:H0; simpl in Hrun; [|done].
    destruct (store_color_index m0 1 _) as [m1|] eqn:H1; simpl in Hrun; [|done].
    destruct (store_color_index m1 2 _) as [m2|] eqn:H2; simpl in Hrun; [|done].
    destruct (leds ws !! num) as [l0|] eqn:Hnum; simpl in Hrun; [|done].
    apply store_color_index_spec in H0 as (_ & Hl0 & Hc0).
    apply store_color_index_spec in H1 as (_ & Hl1 & Hc1).
    apply store_color_index_spec in H2 as (Hlt & Hl2 & Hc2).
    rewrite length_fmap, length_seq in Hl0.
    set (l := {| led := {| led_cdev := _; num_colors := _;
                           subled_info := m2 |} |}) in Hrun.
    assert (led_registered (info ws) l) as Hreg.
    { unfold led_registered, l. simpl. split_and!; [done|congruence|].
      rewrite Hc2, Hc1, Hc0.
      assert (length (color_index <$>
                (subled_mem c <$> seq 0 (Z.to_nat (ch_per_led (info ws)))))
              = Z.to_nat (ch_per_led (info ws))) as Hcols
        by (rewrite !length_fmap, length_seq; done).
      destruct (color_index <$> (subled_mem c <$> _))
        as [|c0 [|c1 [|c2 rest]]] in Hcols |- *; simpl in Hcols; try lia.
      exists rest. reflexivity. }
    apply lookup_lt_Some in Hnum.
    destruct (decide (register_ret c ≠ 0%Z)) as [Hret|Hret].
    + injection Hrun as <- <- <-. simpl. rewrite length_insert.
      split_and!; try done.
      * intros i Hi. apply list_lookup_insert_ne. lia.
      * constructor; [exists num, 0%Z; left; done|].
        constructor; [exists num, (register_ret c); right; done|].
        constructor.
    + destruct (ws281x_register_leds_loop _ cs (S num))
        as [[[ret' ws''] evs']|] eqn:Hrest; simpl in Hrun; [|done].
      injection Hrun as <- <- <-.
      destruct (IH _ _ _ _ _ Hrest)
        as (Hs & Hm & Hi & Hp & Hn & Hlen & Hlow & Hhigh & Hevs).
      simpl in Hs, Hm, Hi, Hp, Hn, Hlen, Hlow, Hhigh.
      rewrite length_insert in Hlen.
      split_and!; try done.
      * intros i Hlt'. rewrite Hlow by lia.
        apply list_lookup_insert_ne. lia.
      * intros Hz i l' Hrange Hl'. simpl in Hrange.
        destruct (decide (i = num)) as [->|Hne].
        -- rewrite Hlow in Hl' by lia.
           rewrite list_lookup_insert_eq in Hl' by done.
           injection Hl' as <-. exact Hreg.
        -- apply (Hhigh Hz i l'); [lia|done].
      * constructor; [exists num, 0%Z; left; done|].
        constructor; [exists num, (register_ret c); right; done|].
        exact Hevs.
Qed.

(** ** States of a probed chain *)

Lemma registration_allocates_no_pixelstream (evs : list event) :
  Forall (λ e, ∃ k r, e = EvAllocSubleds k ∨ e = EvRegisterLed k r) evs →
  List.filter is_alloc_pixelstream evs = [].
Proof.
  induction 1 as [|e evs' (k & r & [->| ->]) _ IH]; simpl; done.
Qed.

Lemma ws281x_spi_probe_success (env : probe_env) (r : probe_result) :
  ws281x_spi_probe env = Some r → probe_ret r = 0%Z →
  ∃ ws : ws281x_array,
    drvdata r = Some ws ∧ chain_inv env ws ∧
    List.filter is_alloc_pixelstream (probe_trace r)
    = [EvAllocPixelstream
         ((pixel_sz (match_data env) * Z.of_nat (length (children env)))
            mod 2 ^ bits_per_long env)].
Proof.
  unfold ws281x_spi_probe. intros Hrun Hret.
  destruct (decide (Z.of_nat (length (children env)) = 0%Z)) as [Hc|Hc].
  { injection Hrun as <-. simpl in Hret. done. }
  destruct (kzalloc_ok env); simpl in Hrun.
  2:{ injection Hrun as <-. simpl in Hret. done. }
  destruct (decide (mutex_init_ret env ≠ 0%Z)) as [Hmi|Hmi].
  { injection Hrun as <-. simpl in Hret. done. }
  destruct (decide (spi_setup_ret env ≠ 0%Z)) as [Hsp|Hsp].
  { injection Hrun as <-. simpl in Hret. done. }
  destruct (kcalloc_ok env); simpl in Hrun.
  2:{ injection Hrun as <-. simpl in Hret. done. }
  unfold ws281x_register_leds in Hrun.
  destruct (ws281x_register_leds_loop _ _ _) as [[[ret ws] evs]|] eqn:Hreg;
    simpl in Hrun; [|done].
  destruct (decide (ret ≠ 0%Z)) as [Hr|Hr].
  { injection Hrun as <-. simpl in Hret. done. }
  apply dec_stable in Hr. subst ret.
  injection Hrun as <-. simpl.
  destruct (ws281x_register_leds_loop_spec _ _ _ _ _ _ Hreg)
    as (Hs & Hm & Hi & Hp & Hn & Hlen & _ & Hhigh & Hevs).
  simpl in Hs, Hm, Hi, Hp, Hn, Hlen, Hhigh.
  rewrite length_replicate, Nat2Z.id in Hlen.
  exists ws. split_and!; [done| |].
  - unfold chain_inv. rewrite Hi, Hn, Hp, Hm, Hs, length_replicate.
    split_and!; try done.
    apply Forall_lookup. intros i l Hl.
    apply (Hhigh eq_refl i l); [|done].
    apply lookup_lt_Some in Hl. lia.
  - f_equal. apply registration_allocates_no_pixelstream. exact Hevs.
Qed.

Lemma chain_inv_brightness_set (env : probe_env) (ws : ws281x_array)
    (mc_component : Z → Z → Z → Z) (spi_sync : spi_transfer → Z)
    (num : nat) (value ret : Z) (m : machine) :
  chain_inv env ws →
  run (ws281x_brightness_set_blocking mc_component spi_sync num value) ws
    = Some (ret, m) →
  chain_inv env (chain m) ∧
  ∀ xfers r locked, EvSpiSync xfers r locked ∈ trace m →
    len xfers = to_u32 (pixel_sz (info ws) * num_leds ws) ∧
    length (tx_buf xfers) = length (pixelstream ws).
Proof.
  intros (Hi & Hn & Hlen & Hbuf & Hm & Hs & Hreg).
  rewrite run_ws281x_brightness_set_blocking. intros Hrun.
  destruct (updated_leds _ _ _ _) as [ls|] eqn:Hls; simpl in Hrun; [|done].
  rewrite Hm in Hrun.
  destruct (ws281x_update_pixelstream_buf _) as [buf|] eqn:Hupd;
    simpl in Hrun; [|done].
  destruct Hs as [dev Hs]. rewrite Hs in Hrun. simpl in Hrun.
  injection Hrun as <- <-.
  apply ws281x_update_pixelstream_loop_length in Hupd. simpl in Hupd.
  destruct (updated_leds_shape _ _ _ _ _ Hls) as (l & subs & Hl & Hcol & ->).
  split.
  - unfold chain_inv. simpl. rewrite length_insert.
    split_and!; try done; [congruence|].
    apply Forall_insert; [done|].
    pose proof (proj1 (Forall_lookup _ _) Hreg num l Hl)
      as (Hnc & Hsl & rest & Hrgb).
    unfold led_registered. simpl. split_and!; [done| |].
    + rewrite <- Hsl, <- (length_fmap color_index), Hcol, length_fmap. done.
    + exists rest. congruence.
  - intros xfers r locked Hin. simpl in Hin.
    assert (xfers = transfer_of
              (set_pixelstream
                 (set_leds ws
                    (<[num := {| led := set_subled_info (led l) subs |}]>
                       (leds ws))) buf)) as ->.
    { rewrite !elem_of_cons in Hin.
      destruct Hin as [Hin|[Hin|[Hin|[Hin|Hin]]]]; try discriminate.
      - congruence.
      - destruct (decide _); simpl in Hin; rewrite ?elem_of_cons in Hin.
        + destruct Hin as [Hin|[Hin|Hin]]; try discriminate.
          apply elem_of_nil in Hin. done.
        + destruct Hin as [Hin|Hin]; try discriminate.
          apply elem_of_nil in Hin. done. }
    simpl. done.
Qed.

Lemma reachable_inv (env : probe_env) (ws : ws281x_array) :
  reachable env ws → chain_inv env ws.
Proof.
  induction 1 as [r ws Hrun Hret Hdrv|ws mc spi num value ret m _ IH Hrun].
  - destruct (ws281x_spi_probe_success env r Hrun Hret) as (ws' & Hd & Hinv & _).
    congruence.
  - exact (proj1 (chain_inv_brightness_set _ _ _ _ _ _ _ _ IH Hrun)).
Qed.

Lemma region_split (buf : buffer) (off a b : nat) (xs ys : list Z) :
  region buf off (a + b) = xs ++ ys → length xs = a →
  region buf off a = xs ∧ region buf (off + a) b = ys.
Proof.
  intros Heq Hlen. split.
  - transitivity (take a (region buf off (a + b))).
    + unfold region. rewrite take_take. f_equal. lia.
    + rewrite Heq. apply take_app_length'. done.
  - transitivity (drop a (region buf off (a + b))).
    + unfold region. rewrite <- drop_drop. apply take_drop_commute.
    + rewrite Heq. apply drop_app_length'. done.
Qed.

(** C6.  Once the probe has succeeded there is at least one LED, the
    probe has allocated the pixelstream once, with
    [num_leds * pixel_sz] bytes, and in every state the chain goes
    through afterwards the pixelstream has exactly that length and each
    transfer submitted by [ws281x_write] has that length and points to
    that many bytes.  This holds for every chain whose pixelstream is
    smaller than 4 GiB, the range of the 32-bit length of a transfer. *)
Theorem frame_size_invariant (env : probe_env) (ws : ws281x_array) :
  let n := Z.of_nat (length (children env)) in
  let size := (n * pixel_sz (match_data env))%Z in
  (0 ≤ size ≤ UINT_MAX)%Z →
  (32 ≤ bits_per_long env)%Z →
  reachable env ws →
  (1 ≤ n)%Z ∧
  (∀ r, ws281x_spi_probe env = Some r → probe_ret r = 0%Z →
     List.filter is_alloc_pixelstream (probe_trace r)
     = [EvAllocPixelstream size]) ∧
  Z.of_nat (length (pixelstream ws)) = size ∧
  ∀ (mc_component : Z → Z → Z → Z) (spi_sync : spi_transfer → Z)
    (num : nat) (value ret : Z) (m : machine),
    run (ws281x_brightness_set_blocking mc_component spi_sync num value) ws
      = Some (ret, m) →
    Z.of_nat (length (pixelstream (chain m))) = size ∧
    ∀ xfers r locked, EvSpiSync xfers r locked ∈ trace m →
      len xfers = size ∧ Z.of_nat (length (tx_buf xfers)) = size.
Proof.
  intros n size Hsize Hbits Hreach.
  assert (2 ^ 32 ≤ 2 ^ bits_per_long env)%Z as Hpow
    by (apply Z.pow_le_mono_r; lia).
  assert ((pixel_sz (match_data env) * n) mod 2 ^ bits_per_long env = size)%Z
    as Hmod.
  { unfold size, UINT_MAX in *. rewrite Z.mod_small; lia. }
  assert (∀ ws', chain_inv env ws' →
            Z.of_nat (length (pixelstream ws')) = size) as Hlen.
  { intros ws' (_ & _ & _ & Hbuf & _). rewrite Hbuf. fold n.
    rewrite Hmod. lia. }
  pose proof (reachable_inv env ws Hreach) as Hinv.
  split_and!.
  - destruct (decide (1 ≤ n)%Z) as [|Hn]; [done|exfalso].
    assert (children env = []) as Hnil
      by (destruct (children env); [done|simpl in n; lia]).
    clear Hinv Hlen.
    induction Hreach as [r ws Hrun Hret Hdrv|]; [|done].
    unfold ws281x_spi_probe in Hrun. rewrite Hnil in Hrun. simpl in Hrun.
    injection Hrun as <-. simpl in Hret. done.
  - intros r Hrun Hret.
    destruct (ws281x_spi_probe_success env r Hrun Hret) as (_ & _ & _ & ->).
    fold n. rewrite Hmod. done.
  - apply Hlen. done.
  - intros mc_component spi_sync num value ret m Hrun.
    destruct (chain_inv_brightness_set _ _ _ _ _ _ _ _ Hinv Hrun)
      as (Hinv' & Hx).
    split; [apply Hlen; done|].
    intros xfers r locked Hin.
    destruct (Hx xfers r locked Hin) as (-> & ->).
    split; [|apply Hlen; done].
    destruct Hinv as (-> & -> & _). fold n. unfold to_u32.
    rewrite Z.mul_mod_idemp_r by lia.
    unfold size, UINT_MAX in *. rewrite Z.mod_small; lia.
Qed.

(** Two LEDs probed, then LED 1 set to full brightness on a bus that
    fails: the chain is reachable and its pixelstream has 48 bytes. *)
Lemma example_reachable :
  ∃ ws : ws281x_array,
    reachable (example_env 2) ws ∧
    brightness <$> subled_info (led (default zero_led (leds ws !! 1)))
      = [255; 255; 255]%Z.
Proof.
  eexists. split.
  - eapply (reachable_set (example_env 2) _ scaled_component (λ _, (-5)%Z)
              1 255).
    + eapply reachable_probe; [vm_compute; reflexivity|reflexivity..].
    + vm_compute. reflexivity.
  - reflexivity.
Qed.

Lemma frame_size_invariant_witness :
  ∃ ws : ws281x_array,
    reachable (example_env 2) ws ∧
    Z.of_nat (length (pixelstream ws)) = 48%Z.
Proof.
  destruct example_reachable as (ws & Hreach & _).
  exists ws. split; [exact Hreach|].
  apply (frame_size_invariant (example_env 2) ws); [| |exact Hreach].
  - vm_compute. split; discriminate.
  - simpl. lia.
Defined.

(** A reachable chain has the sizes the rebuild relies on, provided a
    pixel holds three subpixels and the frame size fits 32 bits. *)
Lemma reachable_chain_wf (env : probe_env) (ws : ws281x_array) :
  let n := Z.of_nat (length (children env)) in
  (0 ≤ subpixel_sz (match_data env) * 3 ≤ pixel_sz (match_data env))%Z →
  (n ≤ UINT_MAX)%Z →
  (n * pixel_sz (match_data env) ≤ UINT_MAX)%Z →
  (32 ≤ bits_per_long env)%Z →
  reachable env ws → chain_wf ws.
Proof.
  intros n Hps Hn Hsize Hbits Hreach.
  destruct (reachable_inv env ws Hreach)
    as (Hi & Hnum & Hlen & Hbuf & _ & _ & Hreg).
  assert (2 ^ 32 ≤ 2 ^ bits_per_long env)%Z as Hpow
    by (apply Z.pow_le_mono_r; lia).
  fold n in Hnum, Hbuf. unfold UINT_MAX in *.
  unfold chain_wf. rewrite Hi, Hnum, Hlen, Hbuf. unfold to_u32.
  rewrite !Z.mod_small by nia.
  split_and!; [lia|lia|nia|].
  eapply Forall_impl; [|exact Hreg].
  intros l (_ & _ & rest & Hrgb). unfold led_ok.
  rewrite <- (length_fmap color_index), Hrgb. simpl. lia.
Qed.

(** C9.  In every state of a probed chain, each LED has its subled 0
    marked red, its subled 1 green and its subled 2 blue, as set at
    registration, and the rebuild puts at the position of the LED the
    symbols of subled 1 (green), then those of subled 0 (red), then
    those of subled 2 (blue). *)
Theorem subleds_rgb_sent_grb (env : probe_env) (ws : ws281x_array)
    (i : nat) (l : ws281x_led) :
  reachable env ws → chain_wf ws → leds ws !! i = Some l →
  let n := Z.to_nat (subpixel_sz (info ws)) in
  let ps := Z.to_nat (pixel_sz (info ws)) in
  ∃ (red green blue : mc_subled) (rest : list mc_subled) (buf' : buffer),
    subled_info (led l) !! 0 = Some red ∧
    subled_info (led l) !! 1 = Some green ∧
    subled_info (led l) !! 2 = Some blue ∧
    color_index red = LED_COLOR_ID_RED ∧
    color_index green = LED_COLOR_ID_GREEN ∧
    color_index blue = LED_COLOR_ID_BLUE ∧
    ws281x_update_pixelstream_buf ws = Some buf' ∧
    region buf' (i * ps) n
      = subpixel_symbols (info ws) n (to_u8 (brightness green)) ∧
    region buf' (i * ps + n) n
      = subpixel_symbols (info ws) n (to_u8 (brightness red)) ∧
    region buf' (i * ps + 2 * n) n
      = subpixel_symbols (info ws) n (to_u8 (brightness blue)).
Proof.
  intros Hreach Hwf Hl n ps.
  destruct (reachable_inv env ws Hreach) as (_ & _ & _ & _ & _ & _ & Hreg).
  pose proof (proj1 (Forall_lookup _ _) Hreg i l Hl) as (_ & _ & cols & Hrgb).
  destruct (subled_info (led l)) as [|red [|green [|blue rest]]] eqn:Hsub;
    try discriminate.
  simpl in Hrgb. injection Hrgb as Hr Hg Hb _.
  destruct (ws281x_update_pixelstream_buf_spec ws Hwf)
    as (buf' & Hrun & _ & Hpix & _).
  pose proof (Hpix i l Hl) as Hp. fold n ps in Hp.
  unfold pixel_of_led in Hp. rewrite Hsub in Hp. fold n in Hp.
  replace (3 * n) with (n + (n + n)) in Hp by lia.
  apply region_split in Hp as (Hgreen & Hp);
    [|apply length_subpixel_symbols].
  apply region_split in Hp as (Hred & Hblue);
    [|apply length_subpixel_symbols].
  exists red, green, blue, rest, buf'.
  split_and!; try done.
  replace (i * ps + 2 * n) with (i * ps + n + n) by lia. done.
Qed.

Lemma subleds_rgb_sent_grb_witness :
  ∃ ws : ws281x_array,
    reachable (example_env 2) ws ∧
    ∃ buf' : buffer,
      ws281x_update_pixelstream_buf ws = Some buf' ∧
      region buf' 24 24
      = replicate 8 0xFC%Z ++ replicate 8 0xFC%Z ++ replicate 8 0xFC%Z.
Proof.
  destruct example_reachable as (ws & Hreach & Hval).
  assert (chain_wf ws) as Hwf.
  { apply (reachable_chain_wf (example_env 2)); [vm_compute..|exact Hreach].
    - split; discriminate.
    - discriminate.
    - discriminate.
    - discriminate. }
  pose proof (reachable_inv _ _ Hreach) as (Hinfo & _ & Hlen & _).
  destruct (lookup_lt_is_Some_2 (leds ws) 1) as [l Hl];
    [rewrite Hlen; vm_compute; lia|].
  destruct (subleds_rgb_sent_grb (example_env 2) ws 1 l Hreach Hwf Hl)
    as (red & green & blue & rest & buf' & H0 & H1 & H2 & _ & _ & _
        & Hrun & Hg & Hr & Hb).
  exists ws. split; [exact Hreach|]. exists buf'. split; [exact Hrun|].
  rewrite Hl in Hval. simpl in Hval. rewrite Hinfo in Hg, Hr, Hb.
  change (region buf' 24 24) with (region buf' 24 (8 + (8 + 8))).
  rewrite !region_app.
  change (1 * Z.to_nat (pixel_sz (match_data (example_env 2)))) with 24
    in Hg, Hr, Hb.
  change (Z.to_nat (subpixel_sz (match_data (example_env 2)))) with 8
    in Hg, Hr, Hb.
  change (24 + 2 * 8) with (24 + 8 + 8) in Hb.
  rewrite Hg, Hr, Hb.
  destruct (subled_info (led l)) as [|s0 [|s1 [|s2 [|? ?]]]]; try discriminate.
  simpl in H0, H1, H2, Hval.
  injection H0 as <-. injection H1 as <-. injection H2 as <-.
  injection Hval as -> -> ->. reflexivity.
Defined.

Lemma format_pixel_grb_layout_witness :
  ∃ buf' : buffer,
    ws2812_format_pixel_grb ws2812b_info (replicate 24 0%Z) 0 0x10 0x20 0x30
      = Some buf' ∧
    ws281x_format_subpixel ws2812b_info (replicate 8 0%Z) 0 0x10
      = Some (region buf' 0 8) ∧
    ws281x_format_subpixel ws2812b_info (replicate 8 0%Z) 0 0x20
      = Some (region buf' 8 8) ∧
    ws281x_format_subpixel ws2812b_info (replicate 8 0%Z) 0 0x30
      = Some (region buf' 16 8).
Proof.
  destruct (format_pixel_grb_layout ws2812b_info (replicate 24 0%Z) 0
              0x10 0x20 0x30)
    as (buf' & Hrun & _ & _ & Hg & Hr & Hb & _);
    [reflexivity|vm_compute; lia|].
  exists buf'. split_and!; [exact Hrun|exact Hg|exact Hr|exact Hb].
Defined.

Lemma rebuild_changes_only_led_k_witness :
  ∃ buf1 buf2 : buffer,
    ws281x_update_pixelstream_buf example_chain = Some buf1 ∧
    ws281x_update_pixelstream_buf
      (set_leds (set_pixelstream example_chain buf1)
         (<[1 := example_led 0 255 0]> (leds example_chain)))
      = Some buf2 ∧
    ∀ j, j < 24 → buf2 !! j = buf1 !! j.
Proof.
  destruct (rebuild_changes_only_led_k example_chain 1 (example_led 0 255 0))
    as (buf1 & buf2 & H1 & H2 & _ & Hout & _).
  - exact example_chain_wf.
  - simpl. lia.
  - unfold led_ok. simpl. lia.
  - exists buf1, buf2. split_and!; [exact H1|exact H2|].
    intros j Hj. apply Hout.
    change (Z.to_nat (pixel_sz (info example_chain))) with 24. lia.
Defined.

Lemma rebuilt_frame_holds_only_symbols_witness :
  ∃ buf' : buffer,
    ws281x_update_pixelstream_buf example_chain = Some buf' ∧
    Forall (λ x, x = 0xC0%Z ∨ x = 0xFC%Z) buf'.
Proof.
  destruct (rebuilt_frame_holds_only_symbols example_chain)
    as (buf' & Hrun & _ & Href); [exact example_chain_wf|reflexivity|].
  exists buf'. split; [exact Hrun|]. apply Href. reflexivity.
Defined.

(** * Further properties of the rebuild *)

Lemma length_pixel_of_led (info : ws281x_chipinfo) (l : ws281x_led) :
  led_ok l → length (pixel_of_led info l) = 3 * Z.to_nat (subpixel_sz info).
Proof.
  unfold led_ok, pixel_of_led. intros Hok.
  destruct (subled_info (led l)) as [|s0 [|s1 [|s2 rest]]];
    simpl in Hok; try lia.
  rewrite !length_app, !length_subpixel_symbols. lia.
Qed.

(** A buffer that holds the pixel of every LED at the position of the
    LED, and the former contents everywhere else, is the one the rebuild
    produces. *)
Lemma ws281x_update_pixelstream_buf_unique (ws : ws281x_array) (b : buffer) :
  chain_wf ws →
  let n := Z.to_nat (subpixel_sz (info ws)) in
  let ps := Z.to_nat (pixel_sz (info ws)) in
  length b = length (pixelstream ws) →
  (∀ m l, leds ws !! m = Some l →
     region b (m * ps) (3 * n) = pixel_of_led (info ws) l) →
  (∀ m t, m < length (leds ws) → 3 * n ≤ t < ps →
     b !! (m * ps + t) = pixelstream ws !! (m * ps + t)) →
  ws281x_update_pixelstream_buf ws = Some b.
Proof.
  intros Hwf n ps Hlen Hpix Hgap.
  destruct (ws281x_update_pixelstream_buf_spec ws Hwf)
    as (buf' & Hrun & Hlen' & Hpix' & Hgap').
  fold n ps in Hpix', Hgap'. rewrite Hrun. f_equal.
  apply list_eq. intros j.
  destruct (decide (j < length b)) as [Hin|Hout].
  2:{ rewrite !lookup_ge_None_2 by lia. done. }
  destruct Hwf as (Hps & Hleds & Hbuf & Hok). fold n ps in Hps, Hbuf.
  destruct (position_in_pixel (Z.to_nat (num_leds ws)) ps j)
    as (m & t & Hm & Ht & ->); [lia|].
  destruct (decide (t < 3 * n)) as [Hsym|Hpad].
  - destruct (lookup_lt_is_Some_2 (leds ws) m) as [l Hl]; [lia|].
    rewrite (lookup_in_region buf' _ _ t _ (Hpix' m l Hl) Hsym).
    rewrite (lookup_in_region b _ _ t _ (Hpix m l Hl) Hsym). done.
  - rewrite Hgap', Hgap by lia. done.
Qed.

(** X1.  Rebuilding again without a change of state gives the same bytes. *)
Theorem rebuild_idempotent (ws : ws281x_array) :
  chain_wf ws →
  ∃ buf : buffer,
    ws281x_update_pixelstream_buf ws = Some buf ∧
    ws281x_update_pixelstream_buf (set_pixelstream ws buf) = Some buf.
Proof.
  intros Hwf.
  destruct (ws281x_update_pixelstream_buf_spec ws Hwf)
    as (buf & Hrun & Hlen & Hpix & _).
  exists buf. split; [done|].
  apply ws281x_update_pixelstream_buf_unique; simpl; try done.
  destruct Hwf as (Hps & Hleds & Hbuf & Hok).
  unfold chain_wf. simpl. split_and!; [done|done|congruence|done].
Qed.

Lemma rebuild_idempotent_witness :
  ∃ buf : buffer,
    ws281x_update_pixelstream_buf example_chain = Some buf ∧
    ws281x_update_pixelstream_buf (set_pixelstream example_chain buf)
      = Some buf.
Proof. exact (rebuild_idempotent example_chain example_chain_wf). Defined.

Lemma region_concat (info : ws281x_chipinfo) (ls : list ws281x_led) :
  let w := 3 * Z.to_nat (subpixel_sz info) in
  Forall led_ok ls →
  ∀ (buf : buffer) (off : nat),
    (∀ m l, ls !! m = Some l →
       region buf (off + m * w) w = pixel_of_led info l) →
    region buf off (length ls * w) = frame_of_leds info ls.
Proof.
  intros w Hok. induction Hok as [|l ls Hl _ IH]; intros buf off Hpix.
  - unfold region. simpl. rewrite take_0. done.
  - cbn [length]. rewrite Nat.mul_succ_l, (Nat.add_comm (length ls * w) w).
    rewrite region_app. unfold frame_of_leds. cbn [fmap list_fmap concat].
    f_equal.
    + rewrite <- (Hpix 0 l eq_refl). f_equal. lia.
    + apply IH. intros m l' Hm. rewrite <- (Hpix (S m) l' Hm). f_equal. lia.
Qed.

Lemma buffer_is_frame_of_leds (info : ws281x_chipinfo)
    (ls : list ws281x_led) (buf : buffer) :
  let w := 3 * Z.to_nat (subpixel_sz info) in
  Forall led_ok ls →
  length buf = length ls * w →
  (∀ m l, ls !! m = Some l → region buf (m * w) w = pixel_of_led info l) →
  buf = frame_of_leds info ls.
Proof.
  intros w Hok Hlen Hpix.
  rewrite <- (region_concat info ls Hok buf 0 Hpix).
  unfold region. rewrite drop_0, take_ge; [done|]. fold w. lia.
Qed.

(** X2.  When a pixel is exactly three subpixels, the rebuilt pixelstream is
    the concatenation of the formatted pixels of the LEDs in array
    order, whatever the pixelstream held before. *)
Theorem rebuild_is_frame_of_leds (ws : ws281x_array) :
  chain_wf ws →
  pixel_sz (info ws) = (subpixel_sz (info ws) * 3)%Z →
  ws281x_update_pixelstream_buf ws = Some (frame_of_leds (info ws) (leds ws)).
Proof.
  intros Hwf Hsz.
  destruct (ws281x_update_pixelstream_buf_spec ws Hwf)
    as (buf & Hrun & Hlen & Hpix & _).
  destruct Hwf as (Hps & Hleds & Hbuf & Hok).
  assert (Z.to_nat (pixel_sz (info ws))
          = 3 * Z.to_nat (subpixel_sz (info ws))) as Hw by lia.
  rewrite Hw in Hpix, Hbuf. rewrite Hrun. f_equal.
  apply buffer_is_frame_of_leds; [done|lia|done].
Qed.

Lemma rebuild_is_frame_of_leds_witness :
  ws281x_update_pixelstream_buf example_chain
  = Some (frame_of_leds ws2812b_info
            [example_led 0 0 0; example_led 255 0 0]).
Proof.
  exact (rebuild_is_frame_of_leds example_chain example_chain_wf eq_refl).
Defined.

(** X3.  The rebuild stores three subpixels per LED: where a pixel is larger,
    its remaining bytes keep what the pixelstream held before. *)
Theorem rebuild_keeps_pixel_padding (ws : ws281x_array) (m t : nat) :
  chain_wf ws →
  m < length (leds ws) →
  3 * Z.to_nat (subpixel_sz (info ws)) ≤ t < Z.to_nat (pixel_sz (info ws)) →
  ∃ buf : buffer,
    ws281x_update_pixelstream_buf ws = Some buf ∧
    buf !! (m * Z.to_nat (pixel_sz (info ws)) + t)
    = pixelstream ws !! (m * Z.to_nat (pixel_sz (info ws)) + t).
Proof.
  intros Hwf Hm Ht.
  destruct (ws281x_update_pixelstream_buf_spec ws Hwf)
    as (buf & Hrun & _ & _ & Hgap).
  exists buf. split; [done|]. apply Hgap; done.
Qed.

Lemma wide_chain_wf : chain_wf wide_chain.
Proof.
  unfold chain_wf. split_and!; [vm_compute; lia|reflexivity|reflexivity|].
  repeat constructor; unfold led_ok; simpl; lia.
Qed.

Lemma rebuild_keeps_pixel_padding_witness :
  ∃ buf : buffer,
    ws281x_update_pixelstream_buf wide_chain = Some buf ∧
    buf !! 35 = Some 0x55%Z.
Proof.
  destruct (rebuild_keeps_pixel_padding wide_chain 0 35 wide_chain_wf)
    as (buf & Hrun & Hpad); [simpl; lia|vm_compute; lia|].
  exists buf. split; [exact Hrun|]. exact Hpad.
Defined.

Lemma pixel_of_led_low_bytes (info : ws281x_chipinfo) (l l' : ws281x_led) :
  same_low_bytes l l' → pixel_of_led info l = pixel_of_led info l'.
Proof.
  unfold same_low_bytes, pixel_of_led. intros Hsame.
  destruct Hsame as [|s0 s0' r0 r0' H0 [|s1 s1' r1 r1' H1
                      [|s2 s2' r2 r2' H2 _]]]; try done.
  rewrite H0, H1, H2. done.
Qed.

(** X4.  Only the low eight bits of a subled brightness reach the frame:
    replacing an LED by one whose brightness values agree modulo 256
    gives the same rebuilt pixelstream. *)
Theorem rebuild_reads_low_byte (ws : ws281x_array) (k : nat)
    (l l' : ws281x_led) :
  chain_wf ws → leds ws !! k = Some l → same_low_bytes l l' →
  ∃ buf : buffer,
    ws281x_update_pixelstream_buf ws = Some buf ∧
    ws281x_update_pixelstream_buf (set_leds ws (<[k := l']> (leds ws)))
      = Some buf.
Proof.
  intros Hwf Hl Hsame.
  destruct (ws281x_update_pixelstream_buf_spec ws Hwf)
    as (buf & Hrun & Hlen & Hpix & Hgap).
  exists buf. split; [done|].
  assert (led_ok l') as Hok'.
  { destruct Hwf as (_ & _ & _ & Hok).
    pose proof (proj1 (Forall_lookup _ _) Hok k l Hl) as Hl3.
    unfold led_ok in *. apply Forall2_length in Hsame. lia. }
  apply ws281x_update_pixelstream_buf_unique; simpl.
  - destruct Hwf as (Hps & Hleds & Hbuf & Hok).
    unfold chain_wf. simpl. rewrite length_insert.
    split_and!; [done|done|done|]. apply Forall_insert; done.
  - done.
  - intros m lm Hm. destruct (decide (m = k)) as [->|Hne].
    + rewrite list_lookup_insert_eq in Hm by (apply lookup_lt_Some in Hl; done).
      injection Hm as <-.
      rewrite <- (pixel_of_led_low_bytes _ l l' Hsame). apply Hpix. done.
    + rewrite list_lookup_insert_ne in Hm by done. apply Hpix. done.
  - rewrite length_insert. done.
Qed.

Lemma rebuild_reads_low_byte_witness :
  ∃ buf : buffer,
    ws281x_update_pixelstream_buf example_chain = Some buf ∧
    ws281x_update_pixelstream_buf
      (set_leds example_chain
         (<[1 := example_led (255 + 256) 512 (-256)]> (leds example_chain)))
      = Some buf.
Proof.
  apply (rebuild_reads_low_byte example_chain 1 (example_led 255 0 0)
           (example_led (255 + 256) 512 (-256)) example_chain_wf eq_refl).
  unfold same_low_bytes. simpl. repeat constructor.
Defined.

(** * Further properties of the subpixel formatter *)

Lemma ws281x_format_subpixel_loop_bounds (info : ws281x_chipinfo) (n : nat) :
  ∀ (buf buf' : buffer) (base i : nat) (pixel : Z),
    ws281x_format_subpixel_loop info n buf base i pixel = Some buf' →
    n = 0 ∨ base + i + n ≤ length buf.
Proof.
  induction n as [|n IH]; intros buf buf' base i pixel Hrun; [by left|right].
  simpl in Hrun.
  destruct (store _ _ _) as [b1|] eqn:Hst; simpl in Hrun; [|done].
  pose proof (store_length _ _ _ _ Hst) as Hlen.
  unfold store in Hst. destruct (decide _) as [Hlt|]; [|done].
  destruct (IH _ _ _ _ _ Hrun) as [->|Hle]; lia.
Qed.

(** X5.  [ws281x_format_subpixel] stays inside the buffer exactly when the
    [subpixel_sz] bytes from its position on fit into it (or there is
    nothing to store); otherwise it stores past the end. *)
Theorem format_subpixel_in_bounds_iff (info : ws281x_chipinfo) (buf : buffer)
    (off : nat) (pixel : Z) :
  is_Some (ws281x_format_subpixel info buf off pixel)
  ↔ Z.to_nat (subpixel_sz info) = 0
    ∨ off + Z.to_nat (subpixel_sz info) ≤ length buf.
Proof.
  split.
  - intros [buf' Hrun]. unfold ws281x_format_subpixel in Hrun.
    destruct (ws281x_format_subpixel_loop_bounds _ _ _ _ _ _ _ Hrun); [by left|].
    right. lia.
  - intros [Hz|Hfit].
    + unfold ws281x_format_subpixel. rewrite Hz. simpl. done.
    + destruct (ws281x_format_subpixel_spec info buf off pixel Hfit)
        as (buf' & Hrun & _). rewrite Hrun. done.
Qed.

(** X6.  With more than eight symbols per subpixel the byte is shifted out
    after eight of them: every later symbol is [zero_val]. *)
Theorem format_subpixel_tail_is_zero (info : ws281x_chipinfo) (buf : buffer)
    (off : nat) (pixel : Z) (k : nat) :
  off + Z.to_nat (subpixel_sz info) ≤ length buf →
  8 ≤ k < Z.to_nat (subpixel_sz info) →
  ∃ buf' : buffer,
    ws281x_format_subpixel info buf off pixel = Some buf' ∧
    buf' !! (off + k) = Some (zero_val info).
Proof.
  intros Hfit Hk.
  destruct (ws281x_format_subpixel_spec info buf off pixel Hfit)
    as (buf' & Hrun & _ & _ & Hin).
  exists buf'. split; [done|].
  rewrite Hin by lia. rewrite Z.testbit_neg_r by lia. done.
Qed.

Lemma format_subpixel_tail_is_zero_witness :
  ∃ buf' : buffer,
    ws281x_format_subpixel wide_info (replicate 10 0%Z) 0 0xFF = Some buf' ∧
    buf' !! 9 = Some 0xC0%Z.
Proof.
  destruct (format_subpixel_tail_is_zero wide_info (replicate 10 0%Z) 0 0xFF 9)
    as (buf' & Hrun & Hk); [vm_compute; lia|vm_compute; lia|].
  exists buf'. split; [exact Hrun|exact Hk].
Defined.

(** * Further properties of the update protocol *)

(** What [led_mc_calc_color_components] leaves in each subled: a new
    brightness, computed from the intensity, in the first [n] subleds
    from [i] on, and nothing else changed. *)
Lemma led_mc_calc_color_components_loop_lookup
    (mc_component : Z → Z → Z → Z) (max value : Z) (n : nat) :
  ∀ (i : nat) (subs subs' : list mc_subled),
    led_mc_calc_color_components_loop mc_component max n i subs value
      = Some subs' →
    ∀ j, subs' !! j
         = if decide (i ≤ j < i + n)
           then (λ s, set_subled_brightness s
                        (mc_component value (intensity s) max)) <$> subs !! j
           else subs !! j.
Proof.
  induction n as [|n IH]; intros i subs subs' Hrun j; simpl in Hrun.
  - injection Hrun as <-. rewrite decide_False by lia. done.
  - destruct (subs !! i) as [s|] eqn:Hs; simpl in Hrun; [|done].
    rewrite (IH _ _ _ Hrun j).
    destruct (decide (j = i)) as [->|Hne].
    + rewrite decide_False by lia. rewrite decide_True by lia.
      rewrite list_lookup_insert_eq by (apply lookup_lt_Some in Hs; done).
      rewrite Hs. done.
    + rewrite list_lookup_insert_ne by done.
      destruct (decide (S i ≤ j < S i + n)).
      * rewrite decide_True by lia. done.
      * rewrite decide_False by lia. done.
Qed.

(** X7.  A call of [ws281x_brightness_set_blocking] on LED [num] changes, of
    the channel state, only the brightness of the first [num_colors]
    subleds of that LED, each set to the component computed from its
    intensity; the other LEDs, the chip information, the LED count and
    the SPI device are as before. *)
Theorem brightness_set_touches_one_led (mc_component : Z → Z → Z → Z)
    (spi_sync : spi_transfer → Z) (ws : ws281x_array) (num : nat)
    (value ret : Z) (m : machine) :
  run (ws281x_brightness_set_blocking mc_component spi_sync num value) ws
    = Some (ret, m) →
  info (chain m) = info ws ∧ num_leds (chain m) = num_leds ws ∧
  spi (chain m) = spi ws ∧
  (∀ j, j ≠ num → leds (chain m) !! j = leds ws !! j) ∧
  ∃ l l' : ws281x_led,
    leds ws !! num = Some l ∧ leds (chain m) !! num = Some l' ∧
    led_cdev (led l') = led_cdev (led l) ∧
    num_colors (led l') = num_colors (led l) ∧
    ∀ j, subled_info (led l') !! j
         = if decide (j < Z.to_nat (num_colors (led l)))
           then (λ s, set_subled_brightness s
                        (mc_component value (intensity s)
                           (max_brightness (led_cdev (led l)))))
                  <$> subled_info (led l) !! j
           else subled_info (led l) !! j.
Proof.
  rewrite run_ws281x_brightness_set_blocking. intros Hrun.
  destruct (updated_leds _ _ _ _) as [ls|] eqn:Hls; simpl in Hrun; [|done].
  destruct (mutex ws); [done|].
  destruct (ws281x_update_pixelstream_buf _) as [buf|]; simpl in Hrun; [|done].
  destruct (spi ws) as [dev|] eqn:Hspi; simpl in Hrun; [|done].
  injection Hrun as <- <-. simpl.
  unfold updated_leds in Hls.
  destruct (leds ws !! num) as [l|] eqn:Hl; simpl in Hls; [|done].
  destruct (led_mc_calc_color_components_loop _ _ _ _ _ _) as [subs|] eqn:Hloop;
    simpl in Hls; [|done].
  injection Hls as <-.
  split_and!; [done|done|done| |].
  - intros j Hne. apply list_lookup_insert_ne. done.
  - eexists l, _. split_and!; [done| |..].
    + apply list_lookup_insert_eq. apply lookup_lt_Some in Hl. done.
    + done.
    + done.
    + intros j. simpl.
      rewrite (led_mc_calc_color_components_loop_lookup _ _ _ _ _ _ _ Hloop j).
      destruct (decide (j < Z.to_nat (num_colors (led l)))).
      * rewrite decide_True by lia. done.
      * rewrite decide_False by lia. done.
Qed.

Lemma brightness_set_touches_one_led_witness :
  ∃ m : machine,
    run (ws281x_brightness_set_blocking scaled_component (λ _, 0%Z) 1 128)
      example_chain = Some (0%Z, m) ∧
    leds (chain m) !! 0 = Some (example_led 0 0 0) ∧
    info (chain m) = ws2812b_info.
Proof.
  assert (∃ m : machine,
            run (ws281x_brightness_set_blocking scaled_component
                   (λ _, 0%Z) 1 128) example_chain = Some (0%Z, m))
    as [m Hrun] by (eexists; vm_compute; reflexivity).
  destruct (brightness_set_touches_one_led _ _ _ _ _ _ _ Hrun)
    as (Hinfo & _ & _ & Hother & _).
  exists m. split_and!; [exact Hrun| |exact Hinfo].
  rewrite Hother by lia. reflexivity.
Defined.

(** A call on a chain in its normal state runs to its end. *)
Lemma ws281x_brightness_set_blocking_runs (mc_component : Z → Z → Z → Z)
    (spi_sync : spi_transfer → Z) (ws : ws281x_array) (num : nat)
    (value : Z) (l : ws281x_led) :
  chain_wf ws → mutex ws = false → is_Some (spi ws) →
  leds ws !! num = Some l → led_colors_ok l →
  ∃ (ret : Z) (m : machine),
    run (ws281x_brightness_set_blocking mc_component spi_sync num value) ws
      = Some (ret, m).
Proof.
  intros Hwf Hm [dev Hspi] Hl Hcol.
  destruct (updated_leds_total mc_component ws num value l Hl Hcol)
    as [ls Hls].
  pose proof (updated_leds_wf _ _ _ _ _ (pixelstream ws) Hwf Hls eq_refl)
    as Hwf1.
  rewrite set_leds_pixelstream_same in Hwf1.
  destruct (ws281x_update_pixelstream_buf_spec _ Hwf1) as (buf & Hbuf & _).
  rewrite run_ws281x_brightness_set_blocking.
  rewrite Hls. simpl. rewrite Hm, Hbuf. simpl. rewrite Hspi. simpl.
  eauto.
Qed.

(** X8.  On a probed chain every call for one of its LEDs returns: no store
    leaves the subled arrays or the pixelstream and the mutex is free
    when the call takes it.  The sizes are those of a chip whose pixel
    holds three subpixels and of a frame below 4 GiB. *)
Theorem brightness_set_returns_on_probed_chain (env : probe_env)
    (ws : ws281x_array) (mc_component : Z → Z → Z → Z)
    (spi_sync : spi_transfer → Z) (num : nat) (value : Z) :
  let n := Z.of_nat (length (children env)) in
  (0 ≤ subpixel_sz (match_data env) * 3 ≤ pixel_sz (match_data env))%Z →
  (n ≤ UINT_MAX)%Z →
  (n * pixel_sz (match_data env) ≤ UINT_MAX)%Z →
  (32 ≤ bits_per_long env)%Z →
  reachable env ws →
  num < length (children env) →
  ∃ (ret : Z) (m : machine),
    run (ws281x_brightness_set_blocking mc_component spi_sync num value) ws
      = Some (ret, m).
Proof.
  intros n Hps Hn Hsize Hbits Hreach Hnum.
  pose proof (reachable_chain_wf env ws Hps Hn Hsize Hbits Hreach) as Hwf.
  destruct (reachable_inv env ws Hreach)
    as (_ & _ & Hlen & _ & Hm & Hspi & Hreg).
  destruct (lookup_lt_is_Some_2 (leds ws) num) as [l Hl]; [lia|].
  apply (ws281x_brightness_set_blocking_runs _ _ ws num value l); try done.
  pose proof (proj1 (Forall_lookup _ _) Hreg num l Hl) as (Hnc & Hsl & _).
  unfold led_colors_ok. rewrite Hnc, Hsl. done.
Qed.

Lemma brightness_set_returns_on_probed_chain_witness :
  ∃ (ws : ws281x_array) (ret : Z) (m : machine),
    reachable (example_env 2) ws ∧
    run (ws281x_brightness_set_blocking scaled_component (λ _, 0%Z) 0 17) ws
      = Some (ret, m).
Proof.
  destruct example_reachable as (ws & Hreach & _).
  destruct (brightness_set_returns_on_probed_chain (example_env 2) ws
              scaled_component (λ _, 0%Z) 0 17) as (ret & m & Hrun).
  - vm_compute. split; discriminate.
  - vm_compute. discriminate.
  - vm_compute. discriminate.
  - simpl. lia.
  - exact Hreach.
  - simpl. lia.
  - exists ws, ret, m. split; [exact Hreach|exact Hrun].
Defined.

(** X9.  After every call that returns, and whether the transfer succeeded
    or not, the pixelstream is the frame of the channel state the call
    left, and that frame is what the single transfer carried (for a
    pixel of exactly three subpixels). *)
Theorem transmitted_frame_encodes_state (mc_component : Z → Z → Z → Z)
    (spi_sync : spi_transfer → Z) (ws : ws281x_array) (num : nat)
    (value ret : Z) (m : machine) :
  chain_wf ws →
  pixel_sz (info ws) = (subpixel_sz (info ws) * 3)%Z →
  run (ws281x_brightness_set_blocking mc_component spi_sync num value) ws
    = Some (ret, m) →
  pixelstream (chain m) = frame_of_leds (info ws) (leds (chain m)) ∧
  List.filter is_spi_sync (trace m)
  = [EvSpiSync
       {| tx_buf := frame_of_leds (info ws) (leds (chain m));
          len := to_u32 (pixel_sz (info ws) * num_leds ws) |} ret true].
Proof.
  intros Hwf Hsz. rewrite run_ws281x_brightness_set_blocking. intros Hrun.
  destruct (updated_leds _ _ _ _) as [ls|] eqn:Hls; simpl in Hrun; [|done].
  destruct (mutex ws); [done|].
  pose proof (updated_leds_wf _ _ _ _ _ (pixelstream ws) Hwf Hls eq_refl)
    as Hwf1.
  rewrite set_leds_pixelstream_same in Hwf1.
  destruct (ws281x_update_pixelstream_buf_spec _ Hwf1)
    as (buf & Hbuf & Hlen & Hpix & _).
  simpl in Hlen, Hpix. rewrite Hbuf in Hrun. simpl in Hrun.
  destruct (spi ws) as [dev|]; simpl in Hrun; [|done].
  injection Hrun as <- <-. simpl.
  destruct Hwf1 as (Hps & Hleds & Hstream & Hok). simpl in *.
  assert (Z.to_nat (pixel_sz (info ws))
          = 3 * Z.to_nat (subpixel_sz (info ws))) as Hw by lia.
  rewrite Hw in Hpix, Hstream.
  assert (buf = frame_of_leds (info ws) ls) as ->
    by (apply buffer_is_frame_of_leds; [done|lia|done]).
  split; [done|]. destruct (decide _); reflexivity.
Qed.

Lemma transmitted_frame_encodes_state_witness :
  ∃ m : machine,
    run (ws281x_brightness_set_blocking scaled_component (λ _, (-5)%Z) 0 255)
      example_chain = Some ((-5)%Z, m) ∧
    pixelstream (chain m) = frame_of_leds ws2812b_info (leds (chain m)).
Proof.
  assert (∃ m : machine,
            run (ws281x_brightness_set_blocking scaled_component
                   (λ _, (-5)%Z) 0 255) example_chain = Some ((-5)%Z, m))
    as [m Hrun] by (eexists; vm_compute; reflexivity).
  exists m. split; [exact Hrun|].
  exact (proj1 (transmitted_frame_encodes_state _ _ _ _ _ _ _
                  example_chain_wf eq_refl Hrun)).
Defined.

(** What one returning call leaves, on a chain with the probe's sizes. *)
Lemma run_ws281x_brightness_set_blocking_wf (mc_component : Z → Z → Z → Z)
    (spi_sync : spi_transfer → Z) (ws : ws281x_array) (num : nat)
    (value ret : Z) (m : machine) :
  chain_wf ws →
  run (ws281x_brightness_set_blocking mc_component spi_sync num value) ws
    = Some (ret, m) →
  let n := Z.to_nat (subpixel_sz (info ws)) in
  let ps := Z.to_nat (pixel_sz (info ws)) in
  updated_leds mc_component ws num value = Some (leds (chain m)) ∧
  info (chain m) = info ws ∧
  chain_wf (chain m) ∧
  length (pixelstream (chain m)) = length (pixelstream ws) ∧
  (∀ i l, leds (chain m) !! i = Some l →
     region (pixelstream (chain m)) (i * ps) (3 * n)
     = pixel_of_led (info ws) l) ∧
  (∀ i t, i < length (leds ws) → 3 * n ≤ t < ps →
     pixelstream (chain m) !! (i * ps + t) = pixelstream ws !! (i * ps + t)).
Proof.
  intros Hwf. rewrite run_ws281x_brightness_set_blocking. intros Hrun n ps.
  destruct (updated_leds _ _ _ _) as [ls|] eqn:Hls; simpl in Hrun; [|done].
  destruct (mutex ws); [done|].
  pose proof (updated_leds_wf _ _ _ _ _ (pixelstream ws) Hwf Hls eq_refl)
    as Hwf1.
  rewrite set_leds_pixelstream_same in Hwf1.
  destruct (ws281x_update_pixelstream_buf_spec _ Hwf1)
    as (buf & Hbuf & Hlen & Hpix & Hgap).
  simpl in Hlen, Hpix, Hgap. rewrite Hbuf in Hrun. simpl in Hrun.
  destruct (spi ws) as [dev|]; simpl in Hrun; [|done].
  injection Hrun as <- <-. simpl.
  split_and!; [done|done| |done|done|].
  - exact (updated_leds_wf _ _ _ _ _ buf Hwf Hls Hlen).
  - intros i t Hi Ht. apply Hgap; [|done].
    destruct (updated_leds_shape _ _ _ _ _ Hls) as (? & ? & _ & _ & ->).
    rewrite length_insert. done.
Qed.

Lemma updated_leds_elsewhere (mc_component : Z → Z → Z → Z)
    (ws ws' : ws281x_array) (num : nat) (value : Z) (l : ws281x_led) :
  leds ws !! num = Some l → leds ws' !! num = Some l →
  ∀ ls ls', updated_leds mc_component ws num value = Some ls →
    updated_leds mc_component ws' num value = Some ls' →
    ∃ l', ls = <[num := l']> (leds ws) ∧ ls' = <[num := l']> (leds ws').
Proof.
  unfold updated_leds. intros Hl Hl' ls ls'. rewrite Hl, Hl'. simpl.
  destruct (led_mc_calc_color_components_loop _ _ _ _ _ _) as [subs|];
    simpl; [|done].
  intros [= <-] [= <-]. eauto.
Qed.

(** X10.  Calls for two different LEDs can be made in either order: the
    channel state and the pixelstream they leave are the same. *)
Theorem brightness_sets_on_two_leds_commute (mc_component : Z → Z → Z → Z)
    (spi1 spi2 spi3 spi4 : spi_transfer → Z) (ws : ws281x_array)
    (j k : nat) (vj vk r1 r2 r3 r4 : Z) (m1 m2 m3 m4 : machine) :
  chain_wf ws → j ≠ k →
  run (ws281x_brightness_set_blocking mc_component spi1 j vj) ws
    = Some (r1, m1) →
  run (ws281x_brightness_set_blocking mc_component spi2 k vk) (chain m1)
    = Some (r2, m2) →
  run (ws281x_brightness_set_blocking mc_component spi3 k vk) ws
    = Some (r3, m3) →
  run (ws281x_brightness_set_blocking mc_component spi4 j vj) (chain m3)
    = Some (r4, m4) →
  leds (chain m2) = leds (chain m4) ∧
  pixelstream (chain m2) = pixelstream (chain m4).
Proof.
  intros Hwf Hne Hrun1 Hrun2 Hrun3 Hrun4.
  destruct (run_ws281x_brightness_set_blocking_wf _ _ _ _ _ _ _ Hwf Hrun1)
    as (Hu1 & Hi1 & Hwf1 & Hl1 & _ & Hg1).
  destruct (run_ws281x_brightness_set_blocking_wf _ _ _ _ _ _ _ Hwf1 Hrun2)
    as (Hu2 & Hi2 & Hwf2 & Hl2 & Hp2 & Hg2).
  destruct (run_ws281x_brightness_set_blocking_wf _ _ _ _ _ _ _ Hwf Hrun3)
    as (Hu3 & Hi3 & Hwf3 & Hl3 & _ & Hg3).
  destruct (run_ws281x_brightness_set_blocking_wf _ _ _ _ _ _ _ Hwf3 Hrun4)
    as (Hu4 & Hi4 & Hwf4 & Hl4 & Hp4 & Hg4).
  rewrite Hi1 in Hp2, Hg2. rewrite Hi3 in Hp4, Hg4.
  destruct (updated_leds_shape _ _ _ _ _ Hu1) as (lj & sj & Hlj & _ & E1).
  destruct (updated_leds_shape _ _ _ _ _ Hu3) as (lk & sk & Hlk & _ & E3).
  assert (leds (chain m3) !! j = Some lj) as Hlj3
    by (rewrite E3, list_lookup_insert_ne by done; done).
  assert (leds (chain m1) !! k = Some lk) as Hlk1
    by (rewrite E1, list_lookup_insert_ne by done; done).
  destruct (updated_leds_elsewhere _ _ _ _ _ _ Hlj Hlj3 _ _ Hu1 Hu4)
    as (lj' & F1 & F4).
  destruct (updated_leds_elsewhere _ _ _ _ _ _ Hlk Hlk1 _ _ Hu3 Hu2)
    as (lk' & F3 & F2).
  assert (leds (chain m2) = leds (chain m4)) as Hleds.
  { rewrite F2, F4, F1, F3. apply list_insert_insert_ne. done. }
  split; [done|].
  apply list_eq. intros p.
  destruct (decide (p < length (pixelstream ws))) as [Hin|Hout].
  2:{ rewrite !lookup_ge_None_2 by lia. done. }
  pose proof Hwf as (Hps & Hlen & Hbuf & _).
  destruct (position_in_pixel (Z.to_nat (num_leds ws))
              (Z.to_nat (pixel_sz (info ws))) p)
    as (i & t & Hi & Ht & ->); [lia|].
  assert (length (leds (chain m1)) = length (leds ws)) as Hn1
    by (rewrite F1, length_insert; done).
  assert (length (leds (chain m3)) = length (leds ws)) as Hn3
    by (rewrite F3, length_insert; done).
  destruct (decide (t < 3 * Z.to_nat (subpixel_sz (info ws)))) as [Hsym|Hpad].
  - destruct (lookup_lt_is_Some_2 (leds (chain m2)) i) as [l Hl].
    { rewrite F2, length_insert. lia. }
    rewrite (lookup_in_region _ _ _ t _ (Hp2 i l Hl) Hsym).
    rewrite Hleds in Hl.
    rewrite (lookup_in_region _ _ _ t _ (Hp4 i l Hl) Hsym). done.
  - rewrite Hg2, Hg1, Hg4, Hg3 by lia. done.
Qed.

Lemma brightness_sets_on_two_leds_commute_witness :
  ∃ m2 m4 : machine,
    leds (chain m2) = leds (chain m4) ∧
    pixelstream (chain m2) = pixelstream (chain m4) ∧
    brightness <$> subled_info (led (default zero_led (leds (chain m2) !! 0)))
      = [0; 0; 0]%Z.
Proof.
  assert (∃ m1 : machine,
            run (ws281x_brightness_set_blocking scaled_component
                   (λ _, 0%Z) 0 99) example_chain = Some (0%Z, m1))
    as [m1 H1] by (eexists; vm_compute; reflexivity).
  assert (∃ m3 : machine,
            run (ws281x_brightness_set_blocking scaled_component
                   (λ _, 0%Z) 1 77) example_chain = Some (0%Z, m3))
    as [m3 H3] by (eexists; vm_compute; reflexivity).
  destruct (run_ws281x_brightness_set_blocking_wf _ _ _ _ _ _ _
              example_chain_wf H1) as (_ & _ & Hwf1 & _).
  destruct (run_ws281x_brightness_set_blocking_wf _ _ _ _ _ _ _
              example_chain_wf H3) as (_ & _ & Hwf3 & _).
  assert (∃ m2 : machine,
            run (ws281x_brightness_set_blocking scaled_component
                   (λ _, 0%Z) 1 77) (chain m1) = Some (0%Z, m2) ∧
            brightness <$> subled_info
              (led (default zero_led (leds (chain m2) !! 0))) = [0; 0; 0]%Z)
    as (m2 & H2 & Hval).
  { vm_compute in H1. injection H1 as <-.
    eexists. split; vm_compute; reflexivity. }
  assert (∃ m4 : machine,
            run (ws281x_brightness_set_blocking scaled_component
                   (λ _, 0%Z) 0 99) (chain m3) = Some (0%Z, m4))
    as [m4 H4].
  { vm_compute in H3. injection H3 as <-. eexists. vm_compute. reflexivity. }
  exists m2, m4.
  destruct (brightness_sets_on_two_leds_commute scaled_component _ _ _ _
              example_chain 0 1 99 77 _ _ _ _ m1 m2 m3 m4
              example_chain_wf ltac:(lia) H1 H2 H3 H4) as (Hl & Hp).
  split_and!; [exact Hl|exact Hp|exact Hval].
Defined.

(** * Further properties of the device setup *)

(** The registration loop, by its status: either every child was
    registered, or the loop stopped at the first child whose
    registration failed, with that status, leaving the later LEDs as
    they were. *)
Lemma ws281x_register_leds_loop_status (cs : list child_env) :
  ∀ (ws ws' : ws281x_array) (num : nat) (ret : Z) (evs : list event),
    ws281x_register_leds_loop ws cs num = Some (ret, ws', evs) →
    (ret = 0%Z ∧ Forall (λ c, register_ret c = 0%Z) cs ∧
     ∀ i l, num ≤ i < num + length cs → leds ws' !! i = Some l →
       led_cdev (led l) = registered_cdev) ∨
    (ret ≠ 0%Z ∧
     ∃ (k : nat) (c : child_env),
       cs !! k = Some c ∧ register_ret c = ret ∧
       Forall (λ c, register_ret c = 0%Z) (take k cs) ∧
       (∀ i, num + k < i → leds ws' !! i = leds ws !! i) ∧
       Forall (λ e, ∃ i r, i ≤ num + k ∧
                 (e = EvAllocSubleds i ∨ e = EvRegisterLed i r)) evs).
Proof.
  induction cs as [|c cs IH]; intros ws ws' num ret evs Hrun;
    cbn [ws281x_register_leds_loop] in Hrun.
  - injection Hrun as <- <- <-. left. split_and!; [done|done|].
    intros i l Hi. simpl in Hi. lia.
  - destruct (kmalloc_ok c); simpl in Hrun; [|done].
    destruct (store_color_index _ 0 _) as [m0|]; simpl in Hrun; [|done].
    destruct (store_color_index m0 1 _) as [m1|]; simpl in Hrun; [|done].
    destruct (store_color_index m1 2 _) as [m2|]; simpl in Hrun; [|done].
    destruct (leds ws !! num) as [l0|] eqn:Hnum; simpl in Hrun; [|done].
    apply lookup_lt_Some in Hnum.
    set (l := {| led := {| led_cdev := _; num_colors := _;
                           subled_info := m2 |} |}) in Hrun.
    destruct (decide (register_ret c ≠ 0%Z)) as [Hret|Hret].
    + injection Hrun as <- <- <-. right. split; [done|].
      exists 0, c. simpl. split_and!; [done|done|constructor| |].
      * intros i Hi. apply list_lookup_insert_ne. lia.
      * constructor; [exists num, 0%Z; split; [lia|by left]|].
        constructor; [exists num, (register_ret c); split; [lia|by right]|].
        constructor.
    + apply dec_stable in Hret.
      destruct (ws281x_register_leds_loop _ cs (S num))
        as [[[ret' ws''] evs']|] eqn:Hrest; simpl in Hrun; [|done].
      injection Hrun as <- <- <-.
      destruct (ws281x_register_leds_loop_spec _ _ _ _ _ _ Hrest)
        as (_ & _ & _ & _ & _ & _ & Hlow & _).
      destruct (IH _ _ _ _ _ Hrest)
        as [(Hz & Hall & Hcdev)|(Hnz & k & ck & Hk & Hck & Htake & Hhigh & Hevs)].
      * left. split_and!; [done|by constructor|].
        intros i li Hi Hli. simpl in Hi.
        destruct (decide (i = num)) as [->|Hne].
        -- rewrite Hlow in Hli by lia. simpl in Hli.
           rewrite list_lookup_insert_eq in Hli by done.
           injection Hli as <-. reflexivity.
        -- apply (Hcdev i li); [lia|done].
      * right. split; [done|]. exists (S k), ck. simpl.
        split_and!; [done|done|by constructor| |].
        -- intros i Hi. rewrite Hhigh by lia. simpl.
           apply list_lookup_insert_ne. lia.
        -- constructor; [exists num, 0%Z; split; [lia|by left]|].
           constructor; [exists num, (register_ret c); split; [lia|by right]|].
           eapply Forall_impl; [|exact Hevs].
           intros e (i & r & Hi & He). exists i, r. split; [lia|done].
Qed.

(** With at least three channels, memory for every subled array and
    room in the LED array, the registration loop has a result. *)
Lemma ws281x_register_leds_loop_total (cs : list child_env) :
  ∀ (ws : ws281x_array) (num : nat),
    3 ≤ Z.to_nat (ch_per_led (info ws)) →
    Forall (λ c, kmalloc_ok c = true) cs →
    num + length cs ≤ length (leds ws) →
    is_Some (ws281x_register_leds_loop ws cs num).
Proof.
  induction cs as [|c cs IH]; intros ws num Hch Hmem Hroom;
    cbn [ws281x_register_leds_loop]; [done|].
  inversion Hmem as [|? ? Hc Hmem']; subst. rewrite Hc. simpl.
  assert (∀ (subs : list mc_subled) i col,
            i < length subs →
            ∃ subs', store_color_index subs i col = Some subs' ∧
                     length subs' = length subs) as Hstore.
  { intros subs i col Hi. unfold store_color_index.
    destruct (lookup_lt_is_Some_2 subs i Hi) as [x Hx]. rewrite Hx. simpl.
    eexists. split; [done|]. apply length_insert. }
  destruct (Hstore (subled_mem c <$> seq 0 (Z.to_nat (ch_per_led (info ws))))
              0 LED_COLOR_ID_RED) as (m0 & -> & Hl0).
  { rewrite length_fmap, length_seq. lia. }
  rewrite length_fmap, length_seq in Hl0. simpl.
  destruct (Hstore m0 1 LED_COLOR_ID_GREEN) as (m1 & -> & Hl1); [lia|]. simpl.
  destruct (Hstore m1 2 LED_COLOR_ID_BLUE) as (m2 & -> & Hl2); [lia|]. simpl.
  simpl in Hroom.
  destruct (lookup_lt_is_Some_2 (leds ws) num) as [l0 ->]; [lia|]. simpl.
  destruct (decide (register_ret c ≠ 0%Z)); [done|].
  set (ws1 := set_leds ws _).
  destruct (IH ws1 (S num)) as [[[ret' ws''] evs'] ->]; try done.
  unfold ws1. simpl. rewrite length_insert. lia.
Qed.

Lemma children_count_nonzero (env : probe_env) :
  children env ≠ [] → Z.of_nat (length (children env)) ≠ 0%Z.
Proof. destruct (children env); [done|]. simpl. lia. Qed.

(** X11.  When no call of the environment fails and the chip has at least
    three channels, the probe returns 0 and leaves a chain with one LED
    structure per child node, a zeroed pixelstream, the mutex free, the
    SPI device set to mode 0, 8 bits per word and the chip's write
    frequency, and every LED registered with brightness [LED_OFF] and
    maximum [LED_FULL]. *)
Theorem probe_success_state (env : probe_env) :
  children env ≠ [] →
  3 ≤ Z.to_nat (ch_per_led (match_data env)) →
  kzalloc_ok env = true → mutex_init_ret env = 0%Z →
  spi_setup_ret env = 0%Z → kcalloc_ok env = true →
  Forall child_ok (children env) →
  ∃ (r : probe_result) (ws : ws281x_array),
    ws281x_spi_probe env = Some r ∧ probe_ret r = 0%Z ∧
    drvdata r = Some ws ∧
    info ws = match_data env ∧
    num_leds ws = to_u32 (Z.of_nat (length (children env))) ∧
    mutex ws = false ∧
    spi ws = Some (probe_spi_device (match_data env)) ∧
    pixelstream ws
    = replicate
        (Z.to_nat ((pixel_sz (match_data env)
                    * Z.of_nat (length (children env)))
                   mod 2 ^ bits_per_long env)) 0%Z ∧
    length (leds ws) = length (children env) ∧
    Forall (λ l, led_cdev (led l) = registered_cdev ∧
                 led_registered (match_data env) l) (leds ws).
Proof.
  intros Hcs Hch Hkz Hmi Hsp Hkc Hok.
  unfold ws281x_spi_probe.
  rewrite decide_False by (apply children_count_nonzero; done).
  rewrite Hkz, Hmi, Hsp, Hkc. simpl. unfold ws281x_register_leds.
  set (ws0 := set_spi _ _).
  destruct (ws281x_register_leds_loop_total (children env) ws0 0)
    as [[[ret ws] evs] Hloop].
  { done. }
  { eapply Forall_impl; [|exact Hok]. intros c [Hc _]. done. }
  { unfold ws0. simpl. rewrite length_replicate. lia. }
  rewrite Hloop. simpl.
  destruct (ws281x_register_leds_loop_spec _ _ _ _ _ _ Hloop)
    as (Hs & Hm & Hi & Hp & Hn & Hlen & _ & Hreg & _).
  unfold ws0 in Hs, Hm, Hi, Hp, Hn, Hlen, Hreg.
  simpl in Hs, Hm, Hi, Hp, Hn, Hlen, Hreg.
  rewrite length_replicate, Nat2Z.id in Hlen.
  destruct (ws281x_register_leds_loop_status _ _ _ _ _ _ Hloop)
    as [(-> & _ & Hcdev)|(Hnz & k & c & Hk & Hc & _)].
  - simpl. eexists _, ws. split; [reflexivity|]. simpl.
    split_and!; try done.
    apply Forall_lookup. intros i l Hl.
    assert (i < length (children env))
      by (apply lookup_lt_Some in Hl; lia).
    split; [apply (Hcdev i l); [lia|done]|apply (Hreg eq_refl i l); [lia|done]].
  - exfalso.
    pose proof (proj1 (Forall_lookup _ _) Hok k c Hk) as [_ Hz]. congruence.
Qed.

Lemma example_children_ok (n : nat) : Forall child_ok (children (example_env n)).
Proof.
  simpl. induction n as [|n IH]; simpl; constructor; [|done].
  split; reflexivity.
Qed.

Lemma probe_success_state_witness :
  ∃ (r : probe_result) (ws : ws281x_array),
    ws281x_spi_probe (example_env 3) = Some r ∧ probe_ret r = 0%Z ∧
    drvdata r = Some ws ∧ pixelstream ws = replicate 72 0%Z ∧
    spi ws = Some {| mode := 0; bits_per_word := 8; max_speed_hz := 6400000 |}.
Proof.
  destruct (probe_success_state (example_env 3))
    as (r & ws & Hrun & Hret & Hdrv & _ & _ & _ & Hspi & Hpix & _);
    [discriminate|vm_compute; lia|reflexivity..|apply example_children_ok|].
  exists r, ws. split_and!; [exact Hrun|exact Hret|exact Hdrv|exact Hpix|exact Hspi].
Defined.

(** X12.  A probe that has a result returns 0 exactly when there is a child
    node and every step succeeded: both allocations, the mutex, the SPI
    setup and the registration of every LED. *)
Theorem probe_returns_zero_iff (env : probe_env) (r : probe_result) :
  ws281x_spi_probe env = Some r →
  probe_ret r = 0%Z
  ↔ children env ≠ [] ∧ kzalloc_ok env = true ∧ mutex_init_ret env = 0%Z ∧
    spi_setup_ret env = 0%Z ∧ kcalloc_ok env = true ∧
    Forall (λ c, register_ret c = 0%Z) (children env).
Proof.
  unfold ws281x_spi_probe. intros Hrun.
  destruct (decide (Z.of_nat (length (children env)) = 0%Z)) as [Hc|Hc].
  { injection Hrun as <-. simpl. split; [done|].
    intros (Hne & _). destruct (children env); [done|simpl in Hc; lia]. }
  assert (children env ≠ []) as Hne by (intros E; rewrite E in Hc; done).
  destruct (kzalloc_ok env); simpl in Hrun.
  2:{ injection Hrun as <-. simpl. split; [done|]. intros (_ & ? & _). done. }
  destruct (decide (mutex_init_ret env ≠ 0%Z)) as [Hmi|Hmi].
  { injection Hrun as <-. simpl. split; [done|]. intros (_ & _ & ? & _). done. }
  destruct (decide (spi_setup_ret env ≠ 0%Z)) as [Hsp|Hsp].
  { injection Hrun as <-. simpl. split; [done|].
    intros (_ & _ & _ & ? & _). done. }
  destruct (kcalloc_ok env); simpl in Hrun.
  2:{ injection Hrun as <-. simpl. split; [done|].
      intros (_ & _ & _ & _ & ? & _). done. }
  apply dec_stable in Hmi, Hsp.
  unfold ws281x_register_leds in Hrun.
  destruct (ws281x_register_leds_loop _ _ _) as [[[ret ws] evs]|] eqn:Hloop;
    simpl in Hrun; [|done].
  destruct (ws281x_register_leds_loop_status _ _ _ _ _ _ Hloop)
    as [(-> & Hall & _)|(Hnz & k & c & Hk & Hck & _)].
  - simpl in Hrun. injection Hrun as <-. simpl. done.
  - rewrite decide_True in Hrun by done. injection Hrun as <-. simpl.
    split; [done|]. intros (_ & _ & _ & _ & _ & Hall).
    pose proof (proj1 (Forall_lookup _ _) Hall k c Hk). congruence.
Qed.

Lemma probe_returns_zero_iff_witness :
  ∃ r : probe_result,
    ws281x_spi_probe (example_env 2) = Some r ∧ probe_ret r = 0%Z ∧
    Forall (λ c, register_ret c = 0%Z) (children (example_env 2)).
Proof.
  assert (∃ r, ws281x_spi_probe (example_env 2) = Some r ∧ probe_ret r = 0%Z)
    as (r & Hrun & Hret) by (eexists; split; vm_compute; reflexivity).
  exists r. split_and!; [exact Hrun|exact Hret|].
  exact (proj2 (proj2 (proj2 (proj2 (proj2
           (proj1 (probe_returns_zero_iff _ r Hrun) Hret)))))).
Defined.



(** X14.  When the registration of the LED of child [k] is the first to
    fail, the probe returns that status; no later child is touched: its
    LED structure is still zeroed and no event of the registration
    concerns it. *)
Theorem probe_stops_at_first_failed_registration (env : probe_env)
    (r : probe_result) (k : nat) (c : child_env) :
  ws281x_spi_probe env = Some r →
  kzalloc_ok env = true → mutex_init_ret env = 0%Z →
  spi_setup_ret env = 0%Z → kcalloc_ok env = true →
  children env !! k = Some c → register_ret c ≠ 0%Z →
  Forall (λ c, register_ret c = 0%Z) (take k (children env)) →
  probe_ret r = register_ret c ∧
  ∃ ws : ws281x_array,
    drvdata r = Some ws ∧
    (∀ i, k < i < length (children env) → leds ws !! i = Some zero_led) ∧
    Forall (λ e, ∀ i ret, e = EvAllocSubleds i ∨ e = EvRegisterLed i ret →
                 i ≤ k) (probe_trace r).
Proof.
  unfold ws281x_spi_probe. intros Hrun Hkz Hmi Hsp Hkc Hk Hc Hbefore.
  assert (children env ≠ []) as Hcs by (intros E; rewrite E in Hk; done).
  rewrite decide_False in Hrun by (apply children_count_nonzero; done).
  rewrite Hkz, Hmi, Hsp, Hkc in Hrun. simpl in Hrun.
  unfold ws281x_register_leds in Hrun.
  destruct (ws281x_register_leds_loop _ _ _) as [[[ret ws] evs]|] eqn:Hloop;
    simpl in Hrun; [|done].
  destruct (ws281x_register_leds_loop_status _ _ _ _ _ _ Hloop)
    as [(-> & Hall & _)|(Hnz & k' & c' & Hk' & Hc' & Htake & Hhigh & Hevs)].
  { pose proof (proj1 (Forall_lookup _ _) Hall k c Hk). done. }
  assert (k' = k) as ->.
  { destruct (Nat.lt_trichotomy k' k) as [Hlt|[->|Hgt]]; [|done|].
    - pose proof (proj1 (Forall_lookup _ _) Hbefore k' c') as Hz.
      rewrite lookup_take_lt in Hz by done. specialize (Hz Hk'). congruence.
    - pose proof (proj1 (Forall_lookup _ _) Htake k c) as Hz.
      rewrite lookup_take_lt in Hz by done. specialize (Hz Hk). done. }
  assert (c' = c) as -> by congruence.
  rewrite decide_True in Hrun by done. injection Hrun as <-. simpl.
  split; [done|]. exists ws. split_and!; [done| |].
  - intros i Hi. rewrite Hhigh by lia. simpl.
    apply lookup_replicate_2. lia.
  - repeat (constructor; [intros i0 r0 [?|?]; discriminate|]).
    apply Forall_app. split.
    + eapply Forall_impl; [|exact Hevs].
      intros e (i & r1 & Hi & He) i0 r0 He0.
      destruct He as [->| ->]; destruct He0 as [He0|He0]; try discriminate;
        injection He0 as <-; lia.
    + repeat constructor. intros i0 r0 [?|?]; discriminate.
Qed.

Lemma probe_stops_at_first_failed_registration_witness :
  ∃ (r : probe_result) (ws : ws281x_array),
    ws281x_spi_probe second_child_fails_env = Some r ∧
    probe_ret r = (-16)%Z ∧ drvdata r = Some ws ∧
    leds ws !! 2 = Some zero_led.
Proof.
  assert (∃ r, ws281x_spi_probe second_child_fails_env = Some r)
    as (r & Hrun) by (eexists; vm_compute; reflexivity).
  destruct (probe_stops_at_first_failed_registration second_child_fails_env
              r 1 (failing_child (-16)) Hrun)
    as (Hret & ws & Hdrv & Hlater & _);
    [reflexivity..|discriminate|repeat constructor|].
  exists r, ws. split_and!; [exact Hrun|exact Hret|exact Hdrv|].
  apply Hlater. simpl. lia.
Defined.

(** X15.  The result of [devm_kmalloc_array] is used unchecked: when it is a
    null pointer for some child and everything before has succeeded,
    the store of the first colour has no defined behaviour. *)
Theorem registration_stores_through_failed_allocation (env : probe_env)
    (k : nat) (c : child_env) :
  kzalloc_ok env = true → mutex_init_ret env = 0%Z →
  spi_setup_ret env = 0%Z → kcalloc_ok env = true →
  3 ≤ Z.to_nat (ch_per_led (match_data env)) →
  children env !! k = Some c → kmalloc_ok c = false →
  Forall child_ok (take k (children env)) →
  ws281x_spi_probe env = None.
Proof.
  intros Hkz Hmi Hsp Hkc Hch Hk Hc Hbefore. unfold ws281x_spi_probe.
  assert (children env ≠ []) as Hcs by (intros E; rewrite E in Hk; done).
  rewrite decide_False by (apply children_count_nonzero; done).
  rewrite Hkz, Hmi, Hsp, Hkc. simpl. unfold ws281x_register_leds.
  set (ws0 := set_spi _ _).
  assert (length (leds ws0) = length (children env)) as Hlen
    by (unfold ws0; simpl; rewrite length_replicate; lia).
  assert (info ws0 = match_data env) as Hinfo by reflexivity.
  assert (∀ cs ws num,
            info ws = match_data env → num + length cs ≤ length (leds ws) →
            cs !! k = Some c → Forall child_ok (take k cs) →
            ws281x_register_leds_loop ws cs num = None) as Hloop.
  { clear Hlen Hinfo Hbefore Hk Hcs. revert k.
    induction k as [|k IH]; intros cs ws num Hi Hroom Hk Hbefore.
    - destruct cs as [|c0 cs]; [done|]. injection Hk as ->.
      cbn [ws281x_register_leds_loop]. rewrite Hc. done.
    - destruct cs as [|c0 cs]; [done|]. simpl in Hk, Hbefore, Hroom.
      inversion Hbefore as [|? ? [Hm0 Hr0] Hrest]; subst.
      cbn [ws281x_register_leds_loop]. rewrite Hm0. simpl.
      destruct (store_color_index _ 0 _) as [m0|]; simpl; [|done].
      destruct (store_color_index m0 1 _) as [m1|]; simpl; [|done].
      destruct (store_color_index m1 2 _) as [m2|]; simpl; [|done].
      destruct (leds ws !! num) as [l0|]; simpl; [|done].
      rewrite Hr0. simpl.
      rewrite (IH cs _ (S num)); [done|done| |done|done].
      simpl. rewrite length_insert. lia. }
  rewrite (Hloop (children env) ws0 0); [done|done|lia|done|done].
Qed.

Lemma registration_stores_through_failed_allocation_witness :
  ws281x_spi_probe
    {| match_data := ws2812b_info;
       children := [example_child; starved_child];
       bits_per_long := 64; kzalloc_ok := true; mutex_init_ret := 0;
       spi_setup_ret := 0; kcalloc_ok := true |} = None.
Proof.
  apply (registration_stores_through_failed_allocation _ 1 starved_child);
    try reflexivity; try (simpl; lia).
  repeat constructor.
Defined.

Lemma ws281x_spi_probe_success_config (env : probe_env) (r : probe_result)
    (ws : ws281x_array) :
  ws281x_spi_probe env = Some r → probe_ret r = 0%Z → drvdata r = Some ws →
  spi ws = Some (probe_spi_device (match_data env)) ∧
  Forall (λ l, led_cdev (led l) = registered_cdev) (leds ws).
Proof.
  unfold ws281x_spi_probe. intros Hrun Hret Hdrv.
  destruct (decide (Z.of_nat (length (children env)) = 0%Z)) as [Hc|Hc].
  { injection Hrun as <-. simpl in Hret. done. }
  destruct (kzalloc_ok env); simpl in Hrun.
  2:{ injection Hrun as <-. simpl in Hret. done. }
  destruct (decide (mutex_init_ret env ≠ 0%Z)) as [Hmi|Hmi].
  { injection Hrun as <-. simpl in Hret. done. }
  destruct (decide (spi_setup_ret env ≠ 0%Z)) as [Hsp|Hsp].
  { injection Hrun as <-. simpl in Hret. done. }
  destruct (kcalloc_ok env); simpl in Hrun.
  2:{ injection Hrun as <-. simpl in Hret. done. }
  unfold ws281x_register_leds in Hrun.
  destruct (ws281x_register_leds_loop _ _ _) as [[[ret ws'] evs]|] eqn:Hloop;
    simpl in Hrun; [|done].
  destruct (decide (ret ≠ 0%Z)) as [Hr|Hr].
  { injection Hrun as <-. simpl in Hret. done. }
  apply dec_stable in Hr. subst ret.
  injection Hrun as <-. simpl in Hdrv. injection Hdrv as ->.
  destruct (ws281x_register_leds_loop_spec _ _ _ _ _ _ Hloop)
    as (Hs & _ & _ & _ & _ & Hlen & _).
  simpl in Hs, Hlen. rewrite length_replicate, Nat2Z.id in Hlen.
  split; [done|].
  destruct (ws281x_register_leds_loop_status _ _ _ _ _ _ Hloop)
    as [(_ & _ & Hcdev)|(Hnz & _)]; [|done].
  apply Forall_lookup. intros i l Hl. apply (Hcdev i l); [|done].
  apply lookup_lt_Some in Hl. lia.
Qed.

(** X16.  What the probe configured stays as it is through every later call:
    the chip information, the LED count, the SPI device with mode 0,
    8 bits per word and the chip's write frequency, and for every LED
    the number of colours and the brightness range; between calls the
    mutex is free. *)
Theorem configuration_fixed_after_probe (env : probe_env)
    (ws : ws281x_array) :
  reachable env ws →
  info ws = match_data env ∧
  num_leds ws = to_u32 (Z.of_nat (length (children env))) ∧
  spi ws = Some (probe_spi_device (match_data env)) ∧
  mutex ws = false ∧
  length (leds ws) = length (children env) ∧
  Forall (λ l, max_brightness (led_cdev (led l)) = LED_FULL ∧
               num_colors (led l) = ch_per_led (match_data env)) (leds ws).
Proof.
  intros Hreach.
  destruct (reachable_inv env ws Hreach)
    as (Hi & Hn & Hlen & _ & Hm & _ & Hreg).
  assert (spi ws = Some (probe_spi_device (match_data env)) ∧
          Forall (λ l, led_cdev (led l) = registered_cdev) (leds ws))
    as [Hspi Hcdev].
  { clear Hi Hn Hlen Hm Hreg.
    induction Hreach as [r ws Hrun Hret Hdrv
                        |ws mc spi_sync num value ret m _ [IHs IHc] Hrun].
    - exact (ws281x_spi_probe_success_config env r ws Hrun Hret Hdrv).
    - rewrite run_ws281x_brightness_set_blocking in Hrun.
      destruct (updated_leds _ _ _ _) as [ls|] eqn:Hls; simpl in Hrun; [|done].
      destruct (mutex ws); [done|].
      destruct (ws281x_update_pixelstream_buf _) as [buf|];
        simpl in Hrun; [|done].
      rewrite IHs in Hrun. simpl in Hrun. injection Hrun as <- <-. simpl.
      split; [done|].
      destruct (updated_leds_shape _ _ _ _ _ Hls) as (l & subs & Hl & _ & ->).
      apply Forall_insert; [done|]. simpl.
      exact (proj1 (Forall_lookup _ _) IHc num l Hl). }
  split_and!; try done.
  apply Forall_lookup. intros i l Hl. split.
  - rewrite (proj1 (Forall_lookup _ _) Hcdev i l Hl). reflexivity.
  - exact (proj1 (proj1 (Forall_lookup _ _) Hreg i l Hl)).
Qed.

Lemma configuration_fixed_after_probe_witness :
  ∃ ws : ws281x_array,
    reachable (example_env 2) ws ∧
    spi ws = Some {| mode := 0; bits_per_word := 8; max_speed_hz := 6400000 |} ∧
    num_leds ws = 2%Z.
Proof.
  destruct example_reachable as (ws & Hreach & _).
  destruct (configuration_fixed_after_probe (example_env 2) ws Hreach)
    as (_ & Hn & Hspi & _).
  exists ws. split_and!; [exact Hreach|exact Hspi|exact Hn].
Defined.

(** * Reading a frame back *)

(** X17.  With eight symbols per subpixel and two distinct symbols, the
    rebuilt pixelstream can be read back: the three subpixels at the
    position of an LED decode to the low bytes of the brightness of its
    subled 1, subled 0 and subled 2, in this order. *)
Theorem frame_decodes_to_channel_state (ws : ws281x_array) (i : nat)
    (l : ws281x_led) (s0 s1 s2 : mc_subled) (rest : list mc_subled) :
  chain_wf ws →
  subpixel_sz (info ws) = BITS_PER_BYTE →
  one_val (info ws) ≠ zero_val (info ws) →
  leds ws !! i = Some l →
  subled_info (led l) = s0 :: s1 :: s2 :: rest →
  let ps := Z.to_nat (pixel_sz (info ws)) in
  ∃ buf : buffer,
    ws281x_update_pixelstream_buf ws = Some buf ∧
    decode_symbols (info ws) 0 (region buf (i * ps) 8)
      = Some (to_u8 (brightness s1)) ∧
    decode_symbols (info ws) 0 (region buf (i * ps + 8) 8)
      = Some (to_u8 (brightness s0)) ∧
    decode_symbols (info ws) 0 (region buf (i * ps + 16) 8)
      = Some (to_u8 (brightness s2)).
Proof.
  intros Hwf Hsz Hne Hl Hsub ps.
  destruct (ws281x_update_pixelstream_buf_spec ws Hwf)
    as (buf & Hrun & _ & Hpix & _).
  pose proof (Hpix i l Hl) as Hp. fold ps in Hp.
  unfold pixel_of_led in Hp. rewrite Hsub, Hsz in Hp.
  change (Z.to_nat BITS_PER_BYTE) with 8 in Hp.
  change (3 * 8) with (8 + (8 + 8)) in Hp.
  apply region_split in Hp as (Hg & Hp); [|apply length_subpixel_symbols].
  apply region_split in Hp as (Hr & Hb); [|apply length_subpixel_symbols].
  assert (∀ z, 0 ≤ to_u8 z < 256)%Z as Hrange
    by (intros z; unfold to_u8; apply Z.mod_pos_bound; lia).
  exists buf. split; [done|].
  rewrite Hg, Hr. replace (i * ps + 16) with (i * ps + 8 + 8) by lia.
  rewrite Hb.
  split_and!; apply decode_subpixel_symbols; done.
Qed.

Lemma frame_decodes_to_channel_state_witness :
  ∃ buf : buffer,
    ws281x_update_pixelstream_buf example_chain = Some buf ∧
    decode_symbols ws2812b_info 0 (region buf 32 8) = Some 255%Z.
Proof.
  destruct (frame_decodes_to_channel_state example_chain 1
              (example_led 255 0 0) _ _ _ [] example_chain_wf eq_refl
              ltac:(discriminate) eq_refl eq_refl)
    as (buf & Hrun & _ & Hred & _).
  exists buf. split; [exact Hrun|exact Hred].
Defined.
